(** * unisystem: the accounts and mecanico models

  A shallow embedding of [accounts/models.py] and [mecanico/models.py]:
  the model classes as records, their derived properties as functions,
  the two [post_save] receivers on [User] as transformers of an explicit
  database state, and the slice of the object-relational layer the
  models rely on (field cleaning, unique checks, insert-or-update saves,
  the reverse one-to-one accessor, Python's [decimal] product).

  Conventions.  A column declared without [null=True] is modelled at its
  value type, a nullable one as an [option].  Text that is "missing" is
  the empty string, which is what the framework stores for an empty
  [CharField] or [TextField].  Text is held as its UTF-8 bytes, and its
  length is counted in characters, as [len] of a Python [str] is.  The
  range of an integer column is the one the database connection reports.
  Columns filled in by the framework at save time ([auto_now_add],
  [auto_now]) are not editable, never validated, and are left out of the
  records: an object is one the constructor built or a query returned.
  Tables are finite maps from primary key to row. *)

From Stdlib Require Import ZArith NArith QArith Qpower Ascii String List Lia.
From stdpp Require Import base option list gmap strings.

Open Scope Z_scope.

(** ** Python's [decimal.Decimal], finite values under the default context *)

Module Decimal.

(** A finite decimal is [(-1)^sign * coeff * 10^exp]. *)
Record t := mk { sign : bool; coeff : N; exp : Z }.

(** The default context: [prec] digits, rounding [ROUND_HALF_EVEN],
    exponents between [Emin] and [Emax], [clamp = 0], and [Overflow]
    among its traps. *)
Definition prec : N := 28.

Definition Emax : Z := 999999.

Definition Emin : Z := -999999.

(** [Context.Etiny()] and [Context.Etop()]: the least and the greatest
    exponent of a result of full precision. *)
Definition Etiny : Z := Emin - Z.of_N prec + 1.

Definition Etop : Z := Emax - Z.of_N prec + 1.

Fixpoint digits_aux (fuel : nat) (n : N) : N :=
  match fuel with
  | O => 0
  | S fuel' => if (n =? 0)%N then 0%N else (1 + digits_aux fuel' (n / 10))%N
  end.

(** [len(str(n))]: the number of decimal digits, 1 for zero. *)
Definition digits (n : N) : N :=
  if (n =? 0)%N then 1%N else digits_aux (N.to_nat (N.size n)) n.

(** Drop the [k] low digits of [c], rounding half to even. *)
Definition round_half_even (c k : N) : N :=
  let p := (10 ^ k)%N in
  let q := (c / p)%N in
  let r := (c mod p)%N in
  match (2 * r ?= p)%N with
  | Lt => q
  | Gt => (q + 1)%N
  | Eq => if N.even q then q else (q + 1)%N
  end.

(** [Decimal._fix]: the decimal fitted to the context.  A zero keeps an
    exponent within the limits; a coefficient longer than the precision,
    or an exponent under [Etiny], is rounded; [None] is
    [decimal.Overflow], raised for a result above [Emax]. *)
Definition fix_ (d : t) : option t :=
  if (coeff d =? 0)%N then
    Some (mk (sign d) 0 (Z.min (Z.max (exp d) Etiny) Emax))
  else
    let exp_min := Z.of_N (digits (coeff d)) + exp d - Z.of_N prec in
    if Etop <? exp_min then None
    else
      let exp_min := Z.max exp_min Etiny in
      if exp d <? exp_min then
        let c := round_half_even (coeff d) (Z.to_N (exp_min - exp d)) in
        let '(c, exp_min) :=
          if (c <? 10 ^ prec)%N then (c, exp_min)
          else ((c / 10)%N, exp_min + 1) in
        if Etop <? exp_min then None else Some (mk (sign d) c exp_min)
      else Some d.

(** [Decimal(n)] for a Python [int]: exact. *)
Definition of_int (n : Z) : t := mk (n <? 0) (Z.to_N (Z.abs n)) 0.

(** The product before it is fitted to the context. *)
Definition mul_exact (a b : t) : t :=
  mk (xorb (sign a) (sign b)) (coeff a * coeff b)%N (exp a + exp b).

(** [Decimal.__mul__]. *)
Definition mul (a b : t) : option t := fix_ (mul_exact a b).

(** [n * d] with [n] an [int]: [int.__mul__] declines and
    [Decimal.__rmul__] converts [n] and multiplies. *)
Definition rmul (d : t) (n : Z) : option t := mul d (of_int n).

(** [Decimal.__bool__]: a finite decimal is true unless it is zero. *)
Definition to_bool (d : t) : bool := negb (coeff d =? 0)%N.

(** The rational number a decimal denotes. *)
Definition value (d : t) : Q :=
  ((if sign d then - (1) else 1) * inject_Z (Z.of_N (coeff d))
   * (inject_Z 10) ^ (exp d))%Q.

End Decimal.

(** ** The validation layer of the object-relational framework *)

Module Django.

(** The [code] of a [ValidationError]. *)
Inductive Code :=
| InvalidChoice | Null | Blank | Invalid | Unique
| MinValue | MaxValue | MaxLength
| MaxDigits | MaxDecimalPlaces | MaxWholeDigits.

(** The error dictionary of [Model.full_clean], flattened: one entry per
    error, keyed by the name of the field it belongs to. *)
Definition ErrorDict := list (string * Code).

Definition on (field : string) (errors : list Code) : ErrorDict :=
  map (pair field) errors.

Definition names (errors : ErrorDict) : list string := map fst errors.

Definition excluded (field : string) (exclude : list string) : bool :=
  existsb (String.eqb field) exclude.

(** What the cleaning of a row asks the connection: the range of an
    integer column, [connection.ops.integer_field_range("IntegerField")]
    (a bound is [None] on a backend that has none), and the primary keys
    present in each table a foreign key points to. *)
Record PrimaryKeys := {
  integer_field_range : option Z * option Z;
  pk_User : gset nat;
  pk_Categoria : gset nat;
  pk_Ubicacion : gset nat;
  pk_Cliente : gset nat;
  pk_TipoMaquina : gset nat;
  pk_ElementoMecanico : gset nat;
  pk_OrdenTrabajo : gset nat
}.

Record Options := { blank : bool; null : bool }.

Definition required : Options := {| blank := false; null := false |}.
Definition optional : Options := {| blank := true; null := true |}.

(** [value in field.empty_values], for text and for every other type. *)
Definition empty_text (v : option string) : bool :=
  match v with None => true | Some s => String.eqb s "" end.

Definition empty_other {A} (v : option A) : bool :=
  match v with None => true | Some _ => false end.

Section Field.
Context {A : Type} (empty : option A -> bool) (eqb : A -> A -> bool).

(** [Field.validate]: the choices, then [null], then [blank]; the first
    failure is the one raised. *)
Definition validate (o : Options) (choices : option (list A))
    (v : option A) : list Code :=
  let bad_choice :=
    match choices, v with
    | Some cs, Some a => negb (empty v) && negb (existsb (eqb a) cs)
    | _, _ => false
    end in
  if bad_choice then [InvalidChoice]
  else if empty_other v && negb (null o) then [Null]
  else if negb (blank o) && empty v then [Blank]
  else [].

(** [Field.run_validators]: skipped on an empty value, otherwise every
    validator runs and the errors are collected. *)
Definition run_validators (validators : list (A -> list Code))
    (v : option A) : list Code :=
  match v with
  | Some a => if empty v then [] else flat_map (fun f => f a) validators
  | None => []
  end.

(** [Field.clean]. *)
Definition clean (o : Options) (choices : option (list A))
    (validators : list (A -> list Code)) (v : option A) : list Code :=
  match validate o choices v with
  | [] => run_validators validators v
  | errors => errors
  end.

(** One turn of the loop of [Model.clean_fields]: an empty value of a
    [blank=True] field is not cleaned at all. *)
Definition clean_field (o : Options) (choices : option (list A))
    (validators : list (A -> list Code)) (v : option A) : list Code :=
  if blank o && empty v then [] else clean o choices validators v.
End Field.

(** *** Validators *)

Definition MinValueValidator (limit a : Z) : list Code :=
  if a <? limit then [MinValue] else [].

Definition MaxValueValidator (limit a : Z) : list Code :=
  if limit <? a then [MaxValue] else [].

(** [len(s)] of a Python [str]: its characters are the bytes of its
    UTF-8 form that do not continue another byte. *)
Definition is_continuation (a : ascii) : bool :=
  let n := nat_of_ascii a in (128 <=? n)%nat && (n <? 192)%nat.

Fixpoint len (s : string) : nat :=
  match s with
  | EmptyString => 0%nat
  | String a rest => ((if is_continuation a then 0 else 1) + len rest)%nat
  end.

Definition MaxLengthValidator (limit : nat) (s : string) : list Code :=
  if (limit <? len s)%nat then [MaxLength] else [].

(** [DecimalValidator.__call__] on a finite decimal. *)
Definition DecimalValidator (max_digits decimal_places : N)
    (d : Decimal.t) : list Code :=
  let len := Decimal.digits (Decimal.coeff d) in
  let e := Decimal.exp d in
  let '(digits, decimals) :=
    if 0 <=? e then
      ((if (Decimal.coeff d =? 0)%N then len else len + Z.to_N e)%N, 0%N)
    else if (len <? Z.to_N (- e))%N then (Z.to_N (- e), Z.to_N (- e))
    else (len, Z.to_N (- e)) in
  let whole_digits := Z.of_N digits - Z.of_N decimals in
  if (max_digits <? digits)%N then [MaxDigits]
  else if (decimal_places <? decimals)%N then [MaxDecimalPlaces]
  else if Z.of_N max_digits - Z.of_N decimal_places <? whole_digits
  then [MaxWholeDigits]
  else [].

(** *** Field classes *)

Definition CharField (max_length : nat) (o : Options)
    (choices : option (list string)) (v : option string) : list Code :=
  clean_field empty_text String.eqb o choices
    [MaxLengthValidator max_length] v.

Definition TextField (o : Options) (v : option string) : list Code :=
  clean_field empty_text String.eqb o None [] v.

Inductive IntValidator := Min (limit : Z) | Max (limit : Z).

Definition run_int (v : IntValidator) : Z -> list Code :=
  match v with
  | Min limit => MinValueValidator limit
  | Max limit => MaxValueValidator limit
  end.

(** A value is within the range of the connection. *)
Definition in_range (range : option Z * option Z) (c : Z) : Prop :=
  match range.1 with Some lo => lo <= c | None => True end
  /\ match range.2 with Some hi => c <= hi | None => True end.

(** A value is under the lower bound of the connection, when it has one. *)
Definition below_range (range : option Z * option Z) (c : Z) : Prop :=
  match range.1 with Some lo => c < lo | None => False end.

(** [IntegerField.validators]: the declared validators, then, for each
    bound the connection has, the range validator that no declared one
    already covers. *)
Definition IntegerField_validators (range : option Z * option Z)
    (declared : list IntValidator) : list IntValidator :=
  declared
  ++ match range.1 with
     | Some lo =>
         if existsb (fun v => match v with
                              | Min l => lo <=? l
                              | Max _ => false
                              end) declared
         then [] else [Min lo]
     | None => []
     end
  ++ match range.2 with
     | Some hi =>
         if existsb (fun v => match v with
                              | Max l => l <=? hi
                              | Min _ => false
                              end) declared
         then [] else [Max hi]
     | None => []
     end.

Definition IntegerField (range : option Z * option Z) (o : Options)
    (declared : list IntValidator) (v : option Z) : list Code :=
  clean_field empty_other Z.eqb o None
    (map run_int (IntegerField_validators range declared)) v.

Definition DecimalField (max_digits decimal_places : N) (o : Options)
    (v : option Decimal.t) : list Code :=
  clean_field empty_other (fun _ _ => false) o None
    [DecimalValidator max_digits decimal_places] v.

(** A point in time, as seconds since the epoch; no validators. *)
Definition DateTimeField (o : Options) (v : option Z) : list Code :=
  clean_field empty_other Z.eqb o None [] v.

(** [ForeignKey.validate] after the presence checks: the row referred to
    has to exist. *)
Definition ForeignKey (target : gset nat) (o : Options) (v : option nat)
    : list Code :=
  clean_field empty_other Nat.eqb o None
    [fun k => if bool_decide (k ∈ target) then [] else [Invalid]] v.

(** [Model._perform_unique_checks] for one [unique=True] column: another
    row (one with a different primary key) holds the same value. *)
Definition unique_check {R V : Type} (eqb : V -> V -> bool)
    (column : R -> V) (table : gmap nat R) (pk : option nat) (v : V)
    : list Code :=
  if existsb (fun kr : nat * R =>
                eqb (column kr.2) v && negb (bool_decide (pk = Some kr.1)))
             (map_to_list table)
  then [Unique] else [].

End Django.

(** ** Python numbers returned by the derived properties *)

Module Python.

(** An [int] or a [Decimal]: [valor_total_stock] returns either. *)
Inductive Number := Int (n : Z) | Dec (d : Decimal.t).

Definition value (x : Number) : Q :=
  match x with
  | Int n => inject_Z n
  | Dec d => Decimal.value d
  end.

End Python.

(** ** mecanico/models.py *)

Module ElementoMecanico.
Import Django.

Definition UNIDAD_MEDIDA_CHOICES : list (string * string) :=
  [("unidad", "Unidad"); ("metro", "Metro"); ("litro", "Litro");
   ("kilogramo", "Kilogramo"); ("caja", "Caja"); ("juego", "Juego")]%string.

Record t := {
  id : option nat;
  codigo : string;
  nombre : string;
  categoria_id : nat;
  descripcion : option string;
  medidas : option string;
  material : option string;
  marca : option string;
  modelo : option string;
  cantidad_actual : Z;
  stock_minimo : Z;
  unidad_medida : string;
  ubicacion_id : nat;
  precio_compra : option Decimal.t;
  precio_venta : option Decimal.t;
  observaciones : option string;
  activo : bool;
  usuario_creacion_id : nat
}.

(** [ElementoMecanico(...)]: the keyword arguments of the columns that
    declare a default are optional ([None] here: not passed). *)
Definition init (codigo nombre : string)
    (categoria_id ubicacion_id usuario_creacion_id : nat)
    (cantidad_actual stock_minimo : option Z) (unidad_medida : option string)
    (precio_compra precio_venta : option Decimal.t) (activo : option bool)
    : t :=
  {| id := None;
     codigo := codigo;
     nombre := nombre;
     categoria_id := categoria_id;
     descripcion := None;
     medidas := None;
     material := None;
     marca := None;
     modelo := None;
     cantidad_actual := default 0 cantidad_actual;
     stock_minimo := default 5 stock_minimo;
     unidad_medida := default "unidad"%string unidad_medida;
     ubicacion_id := ubicacion_id;
     precio_compra := precio_compra;
     precio_venta := precio_venta;
     observaciones := None;
     activo := default true activo;
     usuario_creacion_id := usuario_creacion_id |}.

Definition stock_bajo (self : t) : bool :=
  cantidad_actual self <=? stock_minimo self.

(** [None] when the product raises [decimal.Overflow]. *)
Definition valor_total_stock (self : t) : option Python.Number :=
  match precio_compra self with
  | Some precio =>
      if Decimal.to_bool precio
      then option_map Python.Dec
             (Decimal.rmul precio (cantidad_actual self))
      else Some (Python.Int 0)
  | None => Some (Python.Int 0)
  end.

Definition clean_fields (keys : PrimaryKeys) (self : t) : ErrorDict :=
  on "codigo" (CharField 50 required None (Some (codigo self)))
  ++ on "nombre" (CharField 200 required None (Some (nombre self)))
  ++ on "categoria"
       (ForeignKey (pk_Categoria keys) required (Some (categoria_id self)))
  ++ on "descripcion" (TextField optional (descripcion self))
  ++ on "medidas" (CharField 100 optional None (medidas self))
  ++ on "material" (CharField 100 optional None (material self))
  ++ on "marca" (CharField 100 optional None (marca self))
  ++ on "modelo" (CharField 100 optional None (modelo self))
  ++ on "cantidad_actual"
       (IntegerField (integer_field_range keys) required [Min 0]
          (Some (cantidad_actual self)))
  ++ on "stock_minimo"
       (IntegerField (integer_field_range keys) required [Min 0]
          (Some (stock_minimo self)))
  ++ on "unidad_medida"
       (CharField 20 required (Some (map fst UNIDAD_MEDIDA_CHOICES))
          (Some (unidad_medida self)))
  ++ on "ubicacion"
       (ForeignKey (pk_Ubicacion keys) required (Some (ubicacion_id self)))
  ++ on "precio_compra" (DecimalField 10 2 optional (precio_compra self))
  ++ on "precio_venta" (DecimalField 10 2 optional (precio_venta self))
  ++ on "observaciones" (TextField optional (observaciones self))
  ++ on "usuario_creacion"
       (ForeignKey (pk_User keys) required (Some (usuario_creacion_id self))).

(** [codigo] is the one [unique=True] column; a column that failed
    [clean_fields] is excluded from the unique checks. *)
Definition validate_unique (table : gmap nat t) (exclude : list string)
    (self : t) : ErrorDict :=
  if excluded "codigo" exclude then []
  else on "codigo" (unique_check String.eqb codigo table (id self)
                      (codigo self)).

Definition full_clean (keys : PrimaryKeys) (table : gmap nat t) (self : t)
    : ErrorDict :=
  let errors := clean_fields keys self in
  errors ++ validate_unique table (names errors) self.

End ElementoMecanico.

Module MovimientoStock.
Import Django.

Definition TIPO_MOVIMIENTO_CHOICES : list (string * string) :=
  [("entrada", "Entrada"); ("salida", "Salida");
   ("ajuste", "Ajuste de inventario"); ("devolucion", "Devolución")]%string.

Record t := {
  id : option nat;
  elemento_id : nat;
  tipo_movimiento : string;
  cantidad : Z;
  motivo : string;
  stock_anterior : Z;
  stock_nuevo : Z;
  usuario_id : nat
}.

Definition clean_fields (keys : PrimaryKeys) (self : t) : ErrorDict :=
  on "elemento"
     (ForeignKey (pk_ElementoMecanico keys) required
        (Some (elemento_id self)))
  ++ on "tipo_movimiento"
       (CharField 20 required (Some (map fst TIPO_MOVIMIENTO_CHOICES))
          (Some (tipo_movimiento self)))
  ++ on "cantidad"
       (IntegerField (integer_field_range keys) required [Min 1]
          (Some (cantidad self)))
  ++ on "motivo" (TextField required (Some (motivo self)))
  ++ on "stock_anterior"
       (IntegerField (integer_field_range keys) required []
          (Some (stock_anterior self)))
  ++ on "stock_nuevo"
       (IntegerField (integer_field_range keys) required []
          (Some (stock_nuevo self)))
  ++ on "usuario"
       (ForeignKey (pk_User keys) required (Some (usuario_id self))).

(** No column is unique: [full_clean] is [clean_fields]. *)
Definition full_clean (keys : PrimaryKeys) (self : t) : ErrorDict :=
  clean_fields keys self.

End MovimientoStock.

Module OrdenTrabajo.
Import Django.

Definition ESTADO_CHOICES : list (string * string) :=
  [("ingreso", "Ingreso"); ("presupuesto", "Presupuesto");
   ("confirmacion", "Confirmación"); ("en_proceso", "En Proceso");
   ("terminado", "Terminado"); ("entregado", "Entregado");
   ("cancelado", "Cancelado")]%string.

Record t := {
  id : option nat;
  numero_orden : string;
  cliente_id : nat;
  tipo_maquina_id : nat;
  marca_maquina : option string;
  modelo_maquina : option string;
  numero_serie : option string;
  ano_maquina : option Z;
  motivo_ingreso : string;
  descripcion_trabajo : option string;
  observaciones : option string;
  estado : string;
  fecha_estimada_entrega : option Z;
  fecha_entrega_real : option Z;
  costo_estimado : option Decimal.t;
  costo_final : option Decimal.t;
  tecnico_asignado_id : option nat;
  usuario_creacion_id : nat
}.

(** The assignment [self.estado = value]. *)
Definition set_estado (self : t) (value : string) : t :=
  {| id := id self;
     numero_orden := numero_orden self;
     cliente_id := cliente_id self;
     tipo_maquina_id := tipo_maquina_id self;
     marca_maquina := marca_maquina self;
     modelo_maquina := modelo_maquina self;
     numero_serie := numero_serie self;
     ano_maquina := ano_maquina self;
     motivo_ingreso := motivo_ingreso self;
     descripcion_trabajo := descripcion_trabajo self;
     observaciones := observaciones self;
     estado := value;
     fecha_estimada_entrega := fecha_estimada_entrega self;
     fecha_entrega_real := fecha_entrega_real self;
     costo_estimado := costo_estimado self;
     costo_final := costo_final self;
     tecnico_asignado_id := tecnico_asignado_id self;
     usuario_creacion_id := usuario_creacion_id self |}.

Definition set_id (self : t) (pk : nat) : t :=
  {| id := Some pk;
     numero_orden := numero_orden self;
     cliente_id := cliente_id self;
     tipo_maquina_id := tipo_maquina_id self;
     marca_maquina := marca_maquina self;
     modelo_maquina := modelo_maquina self;
     numero_serie := numero_serie self;
     ano_maquina := ano_maquina self;
     motivo_ingreso := motivo_ingreso self;
     descripcion_trabajo := descripcion_trabajo self;
     observaciones := observaciones self;
     estado := estado self;
     fecha_estimada_entrega := fecha_estimada_entrega self;
     fecha_entrega_real := fecha_entrega_real self;
     costo_estimado := costo_estimado self;
     costo_final := costo_final self;
     tecnico_asignado_id := tecnico_asignado_id self;
     usuario_creacion_id := usuario_creacion_id self |}.

(** The cleaning of the [estado] column alone. *)
Definition clean_estado (value : string) : list Code :=
  CharField 20 required (Some (map fst ESTADO_CHOICES)) (Some value).

Definition clean_fields (keys : PrimaryKeys) (self : t) : ErrorDict :=
  on "numero_orden" (CharField 20 required None (Some (numero_orden self)))
  ++ on "cliente"
       (ForeignKey (pk_Cliente keys) required (Some (cliente_id self)))
  ++ on "tipo_maquina"
       (ForeignKey (pk_TipoMaquina keys) required
          (Some (tipo_maquina_id self)))
  ++ on "marca_maquina" (CharField 100 optional None (marca_maquina self))
  ++ on "modelo_maquina" (CharField 100 optional None (modelo_maquina self))
  ++ on "numero_serie" (CharField 100 optional None (numero_serie self))
  ++ on "ano_maquina"
       (IntegerField (integer_field_range keys) optional [Min 1900]
          (ano_maquina self))
  ++ on "motivo_ingreso" (TextField required (Some (motivo_ingreso self)))
  ++ on "descripcion_trabajo" (TextField optional (descripcion_trabajo self))
  ++ on "observaciones" (TextField optional (observaciones self))
  ++ on "estado" (clean_estado (estado self))
  ++ on "fecha_estimada_entrega"
       (DateTimeField optional (fecha_estimada_entrega self))
  ++ on "fecha_entrega_real"
       (DateTimeField optional (fecha_entrega_real self))
  ++ on "costo_estimado" (DecimalField 10 2 optional (costo_estimado self))
  ++ on "costo_final" (DecimalField 10 2 optional (costo_final self))
  ++ on "tecnico_asignado"
       (ForeignKey (pk_User keys) optional (tecnico_asignado_id self))
  ++ on "usuario_creacion"
       (ForeignKey (pk_User keys) required (Some (usuario_creacion_id self))).

Definition validate_unique (table : gmap nat t) (exclude : list string)
    (self : t) : ErrorDict :=
  if excluded "numero_orden" exclude then []
  else on "numero_orden"
         (unique_check String.eqb numero_orden table (id self)
            (numero_orden self)).

Definition full_clean (keys : PrimaryKeys) (table : gmap nat t) (self : t)
    : ErrorDict :=
  let errors := clean_fields keys self in
  errors ++ validate_unique table (names errors) self.

(** The keys of [ESTADO_CHOICES]. *)
Definition estados : list string :=
  ["ingreso"; "presupuesto"; "confirmacion"; "en_proceso"; "terminado";
   "entregado"; "cancelado"]%string.

(** The position of a state in [ESTADO_CHOICES], which lists the states
    in the order of the workflow; [None] for a value that is not one. *)
Fixpoint position (value : string) (choices : list (string * string))
    : option nat :=
  match choices with
  | [] => None
  | (key, _) :: rest =>
      if String.eqb value key then Some 0%nat
      else option_map S (position value rest)
  end.

End OrdenTrabajo.

Module ElementoUsadoOrden.
Import Django.

Record t := {
  id : option nat;
  orden_id : nat;
  elemento_id : nat;
  cantidad_usada : Z;
  precio_unitario : Decimal.t;
  usuario_id : nat
}.

(** [None] when the product raises [decimal.Overflow]. *)
Definition subtotal (self : t) : option Decimal.t :=
  Decimal.rmul (precio_unitario self) (cantidad_usada self).

Definition clean_fields (keys : PrimaryKeys) (self : t) : ErrorDict :=
  on "orden"
     (ForeignKey (pk_OrdenTrabajo keys) required (Some (orden_id self)))
  ++ on "elemento"
       (ForeignKey (pk_ElementoMecanico keys) required
          (Some (elemento_id self)))
  ++ on "cantidad_usada"
       (IntegerField (integer_field_range keys) required [Min 1]
          (Some (cantidad_usada self)))
  ++ on "precio_unitario"
       (DecimalField 10 2 required (Some (precio_unitario self)))
  ++ on "usuario"
       (ForeignKey (pk_User keys) required (Some (usuario_id self))).

Definition full_clean (keys : PrimaryKeys) (self : t) : ErrorDict :=
  clean_fields keys self.

End ElementoUsadoOrden.

(** ** The tables of the mecanico application and the saves on them *)

Module Mecanico.
Import Django.

(** The tables, and the range the connection gives an integer column. *)
Record DB := {
  integer_range : option Z * option Z;
  auth_user : gset nat;
  categoria : gset nat;
  ubicacion : gset nat;
  cliente : gset nat;
  tipomaquina : gset nat;
  elementomecanico : gmap nat ElementoMecanico.t;
  movimientostock : gmap nat MovimientoStock.t;
  ordentrabajo : gmap nat OrdenTrabajo.t;
  elementousadoorden : gmap nat ElementoUsadoOrden.t
}.

Definition keys (db : DB) : PrimaryKeys :=
  {| integer_field_range := integer_range db;
     pk_User := auth_user db;
     pk_Categoria := categoria db;
     pk_Ubicacion := ubicacion db;
     pk_Cliente := cliente db;
     pk_TipoMaquina := tipomaquina db;
     pk_ElementoMecanico := dom (elementomecanico db);
     pk_OrdenTrabajo := dom (ordentrabajo db) |}.

Inductive Result (T : Type) :=
| Saved (instance : T) (db : DB)
| IntegrityError
| ValidationError (errors : ErrorDict).
Arguments Saved {T}.
Arguments IntegrityError {T}.
Arguments ValidationError {T}.

Definition with_movimientostock (db : DB)
    (table : gmap nat MovimientoStock.t) : DB :=
  {| integer_range := integer_range db;
     auth_user := auth_user db;
     categoria := categoria db;
     ubicacion := ubicacion db;
     cliente := cliente db;
     tipomaquina := tipomaquina db;
     elementomecanico := elementomecanico db;
     movimientostock := table;
     ordentrabajo := ordentrabajo db;
     elementousadoorden := elementousadoorden db |}.

Definition with_ordentrabajo (db : DB) (table : gmap nat OrdenTrabajo.t)
    : DB :=
  {| integer_range := integer_range db;
     auth_user := auth_user db;
     categoria := categoria db;
     ubicacion := ubicacion db;
     cliente := cliente db;
     tipomaquina := tipomaquina db;
     elementomecanico := elementomecanico db;
     movimientostock := movimientostock db;
     ordentrabajo := table;
     elementousadoorden := elementousadoorden db |}.

Definition movimiento_set_id (m : MovimientoStock.t) (pk : nat)
    : MovimientoStock.t :=
  {| MovimientoStock.id := Some pk;
     MovimientoStock.elemento_id := MovimientoStock.elemento_id m;
     MovimientoStock.tipo_movimiento := MovimientoStock.tipo_movimiento m;
     MovimientoStock.cantidad := MovimientoStock.cantidad m;
     MovimientoStock.motivo := MovimientoStock.motivo m;
     MovimientoStock.stock_anterior := MovimientoStock.stock_anterior m;
     MovimientoStock.stock_nuevo := MovimientoStock.stock_nuevo m;
     MovimientoStock.usuario_id := MovimientoStock.usuario_id m |}.

(** [MovimientoStock.objects.create(...)]: the row is inserted as it is
    given.  No validator runs on this path; the database refuses a
    foreign key without a target and a primary key already in use. *)
Definition MovimientoStock_create (db : DB) (m : MovimientoStock.t)
    : Result MovimientoStock.t :=
  let pk := default (fresh (dom (movimientostock db))) (MovimientoStock.id m) in
  if bool_decide (MovimientoStock.elemento_id m ∈ dom (elementomecanico db))
     && bool_decide (MovimientoStock.usuario_id m ∈ auth_user db)
     && negb (bool_decide (pk ∈ dom (movimientostock db)))
  then
    let m' := movimiento_set_id m pk in
    Saved m' (with_movimientostock db (<[pk := m']> (movimientostock db)))
  else IntegrityError.

(** [OrdenTrabajo.save()]: an update of the row with the instance's
    primary key when there is one, an insert otherwise.  The database
    refuses a duplicate [numero_orden] and a dangling foreign key. *)
Definition OrdenTrabajo_save (db : DB) (o : OrdenTrabajo.t)
    : Result OrdenTrabajo.t :=
  let pk := default (fresh (dom (ordentrabajo db))) (OrdenTrabajo.id o) in
  let o' := OrdenTrabajo.set_id o pk in
  if bool_decide (OrdenTrabajo.cliente_id o ∈ cliente db)
     && bool_decide (OrdenTrabajo.tipo_maquina_id o ∈ tipomaquina db)
     && bool_decide (OrdenTrabajo.usuario_creacion_id o ∈ auth_user db)
     && match OrdenTrabajo.tecnico_asignado_id o with
        | Some u => bool_decide (u ∈ auth_user db)
        | None => true
        end
     && match unique_check String.eqb OrdenTrabajo.numero_orden
                (ordentrabajo db) (Some pk) (OrdenTrabajo.numero_orden o)
        with [] => true | _ => false end
  then Saved o' (with_ordentrabajo db (<[pk := o']> (ordentrabajo db)))
  else IntegrityError.

(** A change of state the way a model form (the change view of the admin
    site) performs it: assign, [full_clean], [save]. *)
Definition update_estado (db : DB) (o : OrdenTrabajo.t) (value : string)
    : Result OrdenTrabajo.t :=
  let o' := OrdenTrabajo.set_estado o value in
  match OrdenTrabajo.full_clean (keys db) (ordentrabajo db) o' with
  | [] => OrdenTrabajo_save db o'
  | errors => ValidationError errors
  end.

End Mecanico.

(** ** accounts/models.py *)

Module Accounts.

Definition ROL_CHOICES : list (string * string) :=
  [("administrador", "Administrador"); ("trabajador", "Trabajador");
   ("tecnico", "Técnico")]%string.

Record PerfilUsuario := {
  id : option nat;
  user_id : nat;
  rol : string;
  telefono : option string;
  activo : bool
}.

Definition es_administrador (self : PerfilUsuario) : bool :=
  String.eqb (rol self) "administrador".

Definition es_trabajador (self : PerfilUsuario) : bool :=
  String.eqb (rol self) "trabajador".

Definition es_tecnico (self : PerfilUsuario) : bool :=
  String.eqb (rol self) "tecnico".

(** [PerfilUsuario(user=instance)]: every other column takes its
    declared default. *)
Definition PerfilUsuario_init (user_pk : nat) : PerfilUsuario :=
  {| id := None;
     user_id := user_pk;
     rol := "trabajador";
     telefono := None;
     activo := true |}.

Definition set_id (self : PerfilUsuario) (k : nat) : PerfilUsuario :=
  {| id := Some k;
     user_id := user_id self;
     rol := rol self;
     telefono := telefono self;
     activo := activo self |}.

(** A [User] object in memory: its primary key ([None] until the first
    save) and the cache of the reverse accessor [perfilusuario], filled
    by the first access and by every [PerfilUsuario(user=...)]. *)
Record User := {
  pk : option nat;
  perfilusuario : option PerfilUsuario
}.

Definition set_perfilusuario (instance : User) (p : PerfilUsuario) : User :=
  {| pk := pk instance; perfilusuario := Some p |}.

Record DB := {
  auth_user : gset nat;
  accounts_perfilusuario : gmap nat PerfilUsuario
}.

Inductive Exception :=
| IntegrityError | MultipleObjectsReturned | ValueError.

(** What a call leaves behind: the instance and the tables, and the
    exception when one is raised. *)
Inductive Outcome :=
| Done (instance : User) (db : DB)
| Raised (e : Exception) (instance : User) (db : DB).

Definition bind (o : Outcome) (f : User -> DB -> Outcome) : Outcome :=
  match o with
  | Done instance db => f instance db
  | Raised e instance db => Raised e instance db
  end.

Definition instance_of (o : Outcome) : User :=
  match o with Done i _ | Raised _ i _ => i end.

Definition db_of (o : Outcome) : DB :=
  match o with Done _ db | Raised _ _ db => db end.

(** The unique constraint of the one-to-one column: another row already
    belongs to user [u]. *)
Definition user_taken (table : gmap nat PerfilUsuario) (k u : nat) : bool :=
  existsb (fun kr : nat * PerfilUsuario =>
             Nat.eqb (user_id kr.2) u && negb (Nat.eqb kr.1 k))
          (map_to_list table).

(** [PerfilUsuario.save()] of an object that the constructor built or a
    query returned: the row with the object's primary key is rewritten
    when it exists, a row is inserted otherwise (under a fresh key when
    the object has none).  [fecha_ingreso], which the insert fills and a
    query returns filled, is not a column of this model. *)
Definition PerfilUsuario_save (self : PerfilUsuario) (db : DB)
    : Exception + PerfilUsuario * DB :=
  let table := accounts_perfilusuario db in
  let k := default (fresh (dom table)) (id self) in
  if negb (bool_decide (user_id self ∈ auth_user db)) then inl IntegrityError
  else if user_taken table k (user_id self) then inl IntegrityError
  else
    let row := set_id self k in
    inr (row, {| auth_user := auth_user db;
                 accounts_perfilusuario := <[k := row]> table |}).

(** [instance.perfilusuario]: the cached object, else the row of the
    table that belongs to the instance.  [inr None] stands for
    [RelatedObjectDoesNotExist], which [hasattr] turns into [False]. *)
Definition get_perfilusuario (instance : User) (db : DB)
    : Exception + option PerfilUsuario :=
  match perfilusuario instance, pk instance with
  | Some p, _ => inr (Some p)
  | None, None => inr None
  | None, Some k =>
      match List.filter (fun kr : nat * PerfilUsuario => Nat.eqb (user_id kr.2) k)
              (map_to_list (accounts_perfilusuario db)) with
      | [] => inr None
      | [(j, row)] => inr (Some (set_id row j))
      | _ => inl MultipleObjectsReturned
      end
  end.

Definition crear_perfil_usuario (created : bool) (instance : User)
    (db : DB) : Outcome :=
  if created then
    match pk instance with
    | None => Raised ValueError instance db
    | Some k =>
        let obj := PerfilUsuario_init k in
        match PerfilUsuario_save obj db with
        | inr (obj', db') => Done (set_perfilusuario instance obj') db'
        | inl e => Raised e (set_perfilusuario instance obj) db
        end
    end
  else Done instance db.

Definition guardar_perfil_usuario (instance : User) (db : DB) : Outcome :=
  match get_perfilusuario instance db with
  | inl e => Raised e instance db
  | inr None => Done instance db
  | inr (Some p) =>
      match PerfilUsuario_save p db with
      | inr (p', db') => Done (set_perfilusuario instance p') db'
      | inl e => Raised e (set_perfilusuario instance p) db
      end
  end.

(** [post_save.send(sender=User, instance, created)]: the receivers run
    in the order they were connected; an exception ends the dispatch. *)
Definition post_save (created : bool) (instance : User) (db : DB)
    : Outcome :=
  bind (crear_perfil_usuario created instance db) guardar_perfil_usuario.

(** [User.save()]: the row is written (inserted when the instance has no
    primary key or no row has it, which is what [created] reports), then
    [post_save] is sent. *)
Definition User_save (instance : User) (db : DB) : Outcome :=
  let k := default (fresh (auth_user db)) (pk instance) in
  let created := negb (bool_decide (k ∈ auth_user db)) in
  post_save created
    {| pk := Some k; perfilusuario := perfilusuario instance |}
    {| auth_user := {[k]} ∪ auth_user db;
       accounts_perfilusuario := accounts_perfilusuario db |}.

(** The rows of the profile table that belong to user [u]. *)
Definition perfiles_de (u : nat) (db : DB) : list (nat * PerfilUsuario) :=
  List.filter (fun kr : nat * PerfilUsuario => Nat.eqb (user_id kr.2) u)
    (map_to_list (accounts_perfilusuario db)).

(** No two rows of the profile table belong to the same user: the unique
    constraint of the one-to-one column. *)
Definition one_profile_per_user (db : DB) : Prop :=
  forall j1 j2 p1 p2,
    accounts_perfilusuario db !! j1 = Some p1 ->
    accounts_perfilusuario db !! j2 = Some p2 ->
    user_id p1 = user_id p2 -> j1 = j2.

End Accounts.

(** ** The remaining catalogue models of mecanico/models.py *)

Module Categoria.
Import Django.

Record t := {
  id : option nat;
  nombre : string;
  descripcion : option string;
  activo : bool
}.

Definition clean_fields (self : t) : ErrorDict :=
  on "nombre" (CharField 100 required None (Some (nombre self)))
  ++ on "descripcion" (TextField optional (descripcion self)).

Definition validate_unique (table : gmap nat t) (exclude : list string)
    (self : t) : ErrorDict :=
  if excluded "nombre" exclude then []
  else on "nombre" (unique_check String.eqb nombre table (id self)
                      (nombre self)).

Definition full_clean (table : gmap nat t) (self : t) : ErrorDict :=
  let errors := clean_fields self in
  errors ++ validate_unique table (names errors) self.

End Categoria.

Module Cliente.
Import Django.

Record t := {
  id : option nat;
  nombre : string;
  telefono : option string;
  email : option string;
  direccion : option string;
  rut : option string;
  activo : bool
}.

Definition eqb_rut (a b : option string) : bool :=
  match a, b with
  | Some x, Some y => String.eqb x y
  | _, _ => false
  end.

(** [EmailField] is a [CharField] of 254 characters whose first validator
    is the framework's [validate_email]; that validator is taken as it
    comes, as [validate_email]. *)
Definition clean_fields (validate_email : string -> list Code) (self : t)
    : ErrorDict :=
  on "nombre" (CharField 200 required None (Some (nombre self)))
  ++ on "telefono" (CharField 20 optional None (telefono self))
  ++ on "email"
       (clean_field empty_text String.eqb optional None
          [validate_email; MaxLengthValidator 254] (email self))
  ++ on "direccion" (TextField optional (direccion self))
  ++ on "rut" (CharField 12 optional None (rut self)).

(** The unique check of [rut]: a column that holds [None] is skipped, any
    other value, the empty string too, is looked up among the other
    rows. *)
Definition validate_unique (table : gmap nat t) (exclude : list string)
    (self : t) : ErrorDict :=
  if excluded "rut" exclude then []
  else
    match rut self with
    | None => []
    | Some _ => on "rut" (unique_check eqb_rut rut table (id self) (rut self))
    end.

Definition full_clean (validate_email : string -> list Code)
    (table : gmap nat t) (self : t) : ErrorDict :=
  let errors := clean_fields validate_email self in
  errors ++ validate_unique table (names errors) self.

End Cliente.

(** ** Validation and display of a profile *)

Module Perfil.
Import Django Accounts.

(** [get_rol_display()]: the label of the key, and the value itself when
    it is no key of the choices. *)
Fixpoint display (choices : list (string * string)) (value : string)
    : string :=
  match choices with
  | [] => value
  | (key, label) :: rest =>
      if String.eqb value key then label else display rest value
  end.

Definition get_rol_display (self : PerfilUsuario) : string :=
  display ROL_CHOICES (rol self).

Definition clean_fields (users : gset nat) (self : PerfilUsuario)
    : ErrorDict :=
  on "user" (ForeignKey users required (Some (user_id self)))
  ++ on "rol"
       (CharField 20 required (Some (map fst ROL_CHOICES)) (Some (rol self)))
  ++ on "telefono" (CharField 20 optional None (telefono self)).

(** The one-to-one column is unique. *)
Definition validate_unique (table : gmap nat PerfilUsuario)
    (exclude : list string) (self : PerfilUsuario) : ErrorDict :=
  if excluded "user" exclude then []
  else on "user" (unique_check Nat.eqb user_id table (id self)
                    (user_id self)).

Definition full_clean (db : DB) (self : PerfilUsuario) : ErrorDict :=
  let errors := clean_fields (auth_user db) self in
  errors ++ validate_unique (accounts_perfilusuario db) (names errors) self.

End Perfil.

(** ** Deletion, with the [on_delete] of every foreign key that points at
    the deleted row *)

Module Collector.
Import Mecanico.

Inductive Result :=
| Deleted (db : DB)
| ProtectedError.

(** [ElementoMecanico.delete()].  Two foreign keys point at an item: the
    one of [MovimientoStock] cascades, the one of [ElementoUsadoOrden]
    protects.  A protecting row makes the collection raise before
    anything is deleted. *)
Definition ElementoMecanico_delete (db : DB) (k : nat) : Result :=
  if existsb (fun kr : nat * ElementoUsadoOrden.t =>
                Nat.eqb (ElementoUsadoOrden.elemento_id kr.2) k)
             (map_to_list (elementousadoorden db))
  then ProtectedError
  else
    Deleted
      {| integer_range := integer_range db;
         auth_user := auth_user db;
         categoria := categoria db;
         ubicacion := ubicacion db;
         cliente := cliente db;
         tipomaquina := tipomaquina db;
         elementomecanico := delete k (elementomecanico db);
         movimientostock :=
           filter (fun kr : nat * MovimientoStock.t =>
                     MovimientoStock.elemento_id kr.2 <> k)
                  (movimientostock db);
         ordentrabajo := ordentrabajo db;
         elementousadoorden := elementousadoorden db |}.

(** [Categoria.delete()]: the only foreign key that points at a category
    is the protecting one of [ElementoMecanico]. *)
Definition Categoria_delete (db : DB) (k : nat) : Result :=
  if existsb (fun kr : nat * ElementoMecanico.t =>
                Nat.eqb (ElementoMecanico.categoria_id kr.2) k)
             (map_to_list (elementomecanico db))
  then ProtectedError
  else
    Deleted
      {| integer_range := integer_range db;
         auth_user := auth_user db;
         categoria := categoria db ∖ {[k]};
         ubicacion := ubicacion db;
         cliente := cliente db;
         tipomaquina := tipomaquina db;
         elementomecanico := elementomecanico db;
         movimientostock := movimientostock db;
         ordentrabajo := ordentrabajo db;
         elementousadoorden := elementousadoorden db |}.

(** [Ubicacion.delete()], likewise. *)
Definition Ubicacion_delete (db : DB) (k : nat) : Result :=
  if existsb (fun kr : nat * ElementoMecanico.t =>
                Nat.eqb (ElementoMecanico.ubicacion_id kr.2) k)
             (map_to_list (elementomecanico db))
  then ProtectedError
  else
    Deleted
      {| integer_range := integer_range db;
         auth_user := auth_user db;
         categoria := categoria db;
         ubicacion := ubicacion db ∖ {[k]};
         cliente := cliente db;
         tipomaquina := tipomaquina db;
         elementomecanico := elementomecanico db;
         movimientostock := movimientostock db;
         ordentrabajo := ordentrabajo db;
         elementousadoorden := elementousadoorden db |}.

End Collector.

(** ** Home visits *)

Module AgendaDomicilio.
Import Django.

Definition ESTADO_VISITA_CHOICES : list (string * string) :=
  [("programada", "Programada"); ("en_camino", "En Camino");
   ("revisado", "Revisado en Domicilio");
   ("trasladado", "Trasladado a Taller");
   ("no_revisado", "No se Pudo Revisar"); ("cancelada", "Cancelada")]%string.

Record t := {
  id : option nat;
  cliente_id : nat;
  fecha_visita : Z;
  direccion_visita : string;
  tipo_maquina_id : nat;
  descripcion_problema : string;
  estado_visita : string;
  tecnico_asignado_id : nat;
  observaciones_visita : option string;
  orden_generada_id : option nat;
  usuario_creacion_id : nat
}.

(** The assignment [self.orden_generada = None]. *)
Definition clear_orden_generada (self : t) : t :=
  {| id := id self;
     cliente_id := cliente_id self;
     fecha_visita := fecha_visita self;
     direccion_visita := direccion_visita self;
     tipo_maquina_id := tipo_maquina_id self;
     descripcion_problema := descripcion_problema self;
     estado_visita := estado_visita self;
     tecnico_asignado_id := tecnico_asignado_id self;
     observaciones_visita := observaciones_visita self;
     orden_generada_id := None;
     usuario_creacion_id := usuario_creacion_id self |}.

Definition eqb_orden (a b : option nat) : bool :=
  match a, b with
  | Some x, Some y => Nat.eqb x y
  | _, _ => false
  end.

Definition clean_fields (keys : PrimaryKeys) (self : t) : ErrorDict :=
  on "cliente" (ForeignKey (pk_Cliente keys) required (Some (cliente_id self)))
  ++ on "fecha_visita" (DateTimeField required (Some (fecha_visita self)))
  ++ on "direccion_visita"
       (TextField required (Some (direccion_visita self)))
  ++ on "tipo_maquina"
       (ForeignKey (pk_TipoMaquina keys) required
          (Some (tipo_maquina_id self)))
  ++ on "descripcion_problema"
       (TextField required (Some (descripcion_problema self)))
  ++ on "estado_visita"
       (CharField 20 required (Some (map fst ESTADO_VISITA_CHOICES))
          (Some (estado_visita self)))
  ++ on "tecnico_asignado"
       (ForeignKey (pk_User keys) required (Some (tecnico_asignado_id self)))
  ++ on "observaciones_visita"
       (TextField optional (observaciones_visita self))
  ++ on "orden_generada"
       (ForeignKey (pk_OrdenTrabajo keys) optional (orden_generada_id self))
  ++ on "usuario_creacion"
       (ForeignKey (pk_User keys) required (Some (usuario_creacion_id self))).

(** The one-to-one column [orden_generada] is unique; a visit without an
    order is skipped by the check. *)
Definition validate_unique (table : gmap nat t) (exclude : list string)
    (self : t) : ErrorDict :=
  if excluded "orden_generada" exclude then []
  else
    match orden_generada_id self with
    | None => []
    | Some _ =>
        on "orden_generada"
           (unique_check eqb_orden orden_generada_id table (id self)
              (orden_generada_id self))
    end.

Definition full_clean (keys : PrimaryKeys) (table : gmap nat t) (self : t)
    : ErrorDict :=
  let errors := clean_fields keys self in
  errors ++ validate_unique table (names errors) self.

End AgendaDomicilio.

(** ** Deleting a work order *)

Module Taller.

(** The tables of the application with the agenda of home visits. *)
Record Store := {
  base : Mecanico.DB;
  agendadomicilio : gmap nat AgendaDomicilio.t
}.

(** [OrdenTrabajo.delete()].  Two foreign keys point at an order: the one
    of [ElementoUsadoOrden] cascades, the one of [AgendaDomicilio] is set
    to null.  Nothing protects an order. *)
Definition OrdenTrabajo_delete (s : Store) (k : nat) : Store :=
  let db := base s in
  {| base :=
       {| Mecanico.integer_range := Mecanico.integer_range db;
          Mecanico.auth_user := Mecanico.auth_user db;
          Mecanico.categoria := Mecanico.categoria db;
          Mecanico.ubicacion := Mecanico.ubicacion db;
          Mecanico.cliente := Mecanico.cliente db;
          Mecanico.tipomaquina := Mecanico.tipomaquina db;
          Mecanico.elementomecanico := Mecanico.elementomecanico db;
          Mecanico.movimientostock := Mecanico.movimientostock db;
          Mecanico.ordentrabajo := delete k (Mecanico.ordentrabajo db);
          Mecanico.elementousadoorden :=
            filter (fun kr : nat * ElementoUsadoOrden.t =>
                      ElementoUsadoOrden.orden_id kr.2 <> k)
                   (Mecanico.elementousadoorden db) |};
     agendadomicilio :=
       (fun v : AgendaDomicilio.t =>
          if AgendaDomicilio.eqb_orden (AgendaDomicilio.orden_generada_id v)
               (Some k)
          then AgendaDomicilio.clear_orden_generada v else v)
       <$> agendadomicilio s |}.

End Taller.

(** ** What the constraints of the database keep true *)

Module Integridad.
Import Mecanico.

(** No two stored orders share a [numero_orden]. *)
Definition numero_orden_unico (db : DB) : Prop :=
  forall j1 j2 o1 o2,
    ordentrabajo db !! j1 = Some o1 ->
    ordentrabajo db !! j2 = Some o2 ->
    OrdenTrabajo.numero_orden o1 = OrdenTrabajo.numero_orden o2 -> j1 = j2.

(** Every movement and every used-item line points at a stored item. *)
Definition elementos_referidos (db : DB) : Prop :=
  (forall j m, movimientostock db !! j = Some m ->
               MovimientoStock.elemento_id m ∈ dom (elementomecanico db))
  /\ (forall j l, elementousadoorden db !! j = Some l ->
                  ElementoUsadoOrden.elemento_id l ∈ dom (elementomecanico db)).

(** Every item points at a stored category and a stored location. *)
Definition catalogo_referido (db : DB) : Prop :=
  forall j e, elementomecanico db !! j = Some e ->
              ElementoMecanico.categoria_id e ∈ categoria db
              /\ ElementoMecanico.ubicacion_id e ∈ ubicacion db.

End Integridad.

(** ** Sample rows *)

Module Ejemplos.
Local Open Scope string_scope.

(** Three bearings bought at 12.50. *)
Definition elemento_ejemplo : ElementoMecanico.t :=
  ElementoMecanico.init "R-6204" "Rodamiento 6204" 1 1 1 (Some 3) None None
    (Some (Decimal.mk false 1250 (-2))) None None.

(** Seven units at 19.99. *)
Definition linea_ejemplo : ElementoUsadoOrden.t :=
  {| ElementoUsadoOrden.id := None;
     ElementoUsadoOrden.orden_id := 1;
     ElementoUsadoOrden.elemento_id := 1;
     ElementoUsadoOrden.cantidad_usada := 7;
     ElementoUsadoOrden.precio_unitario := Decimal.mk false 1999 (-2);
     ElementoUsadoOrden.usuario_id := 1 |}.

(** The stored item: ten bearings on the shelf. *)
Definition elemento_almacenado : ElementoMecanico.t :=
  {| ElementoMecanico.id := Some 1%nat;
     ElementoMecanico.codigo := "R-6204";
     ElementoMecanico.nombre := "Rodamiento 6204";
     ElementoMecanico.categoria_id := 1;
     ElementoMecanico.descripcion := None;
     ElementoMecanico.medidas := None;
     ElementoMecanico.material := None;
     ElementoMecanico.marca := None;
     ElementoMecanico.modelo := None;
     ElementoMecanico.cantidad_actual := 10;
     ElementoMecanico.stock_minimo := 5;
     ElementoMecanico.unidad_medida := "unidad";
     ElementoMecanico.ubicacion_id := 1;
     ElementoMecanico.precio_compra := Some (Decimal.mk false 1250 (-2));
     ElementoMecanico.precio_venta := None;
     ElementoMecanico.observaciones := None;
     ElementoMecanico.activo := true;
     ElementoMecanico.usuario_creacion_id := 1 |}.

(** A work order that has been delivered. *)
Definition orden_entregada : OrdenTrabajo.t :=
  {| OrdenTrabajo.id := Some 1%nat;
     OrdenTrabajo.numero_orden := "2024-001";
     OrdenTrabajo.cliente_id := 1;
     OrdenTrabajo.tipo_maquina_id := 1;
     OrdenTrabajo.marca_maquina := None;
     OrdenTrabajo.modelo_maquina := None;
     OrdenTrabajo.numero_serie := None;
     OrdenTrabajo.ano_maquina := Some 2015;
     OrdenTrabajo.motivo_ingreso := "No enciende";
     OrdenTrabajo.descripcion_trabajo := None;
     OrdenTrabajo.observaciones := None;
     OrdenTrabajo.estado := "entregado";
     OrdenTrabajo.fecha_estimada_entrega := None;
     OrdenTrabajo.fecha_entrega_real := None;
     OrdenTrabajo.costo_estimado := None;
     OrdenTrabajo.costo_final := None;
     OrdenTrabajo.tecnico_asignado_id := None;
     OrdenTrabajo.usuario_creacion_id := 1 |}.

(** A workshop with one user, one client, one item and one order, on a
    backend whose integers have 64 bits. *)
Definition taller : Mecanico.DB :=
  {| Mecanico.integer_range :=
       (Some (-9223372036854775808), Some 9223372036854775807);
     Mecanico.auth_user := {[1%nat]};
     Mecanico.categoria := {[1%nat]};
     Mecanico.ubicacion := {[1%nat]};
     Mecanico.cliente := {[1%nat]};
     Mecanico.tipomaquina := {[1%nat]};
     Mecanico.elementomecanico := {[1%nat := elemento_almacenado]};
     Mecanico.movimientostock := ∅;
     Mecanico.ordentrabajo := {[1%nat := orden_entregada]};
     Mecanico.elementousadoorden := ∅ |}.

(** An entry of three units that claims the shelf held seven and now
    holds a hundred, while the item holds ten. *)
Definition movimiento_incoherente : MovimientoStock.t :=
  {| MovimientoStock.id := None;
     MovimientoStock.elemento_id := 1;
     MovimientoStock.tipo_movimiento := "entrada";
     MovimientoStock.cantidad := 3;
     MovimientoStock.motivo := "Compra";
     MovimientoStock.stock_anterior := 7;
     MovimientoStock.stock_nuevo := 100;
     MovimientoStock.usuario_id := 1 |}.

(** An entry whose snapshots of the stock are negative. *)
Definition movimiento_negativo : MovimientoStock.t :=
  {| MovimientoStock.id := None;
     MovimientoStock.elemento_id := 1;
     MovimientoStock.tipo_movimiento := "entrada";
     MovimientoStock.cantidad := 3;
     MovimientoStock.motivo := "Compra";
     MovimientoStock.stock_anterior := -5;
     MovimientoStock.stock_nuevo := -2;
     MovimientoStock.usuario_id := 1 |}.

(** A site with one administrator, user 1, whose profile is row 1. *)
Definition perfil_admin : Accounts.PerfilUsuario :=
  {| Accounts.id := Some 1%nat;
     Accounts.user_id := 1;
     Accounts.rol := "administrador";
     Accounts.telefono := None;
     Accounts.activo := true |}.

Definition sitio : Accounts.DB :=
  {| Accounts.auth_user := {[1%nat]};
     Accounts.accounts_perfilusuario := {[1%nat := perfil_admin]} |}.

(** [User(...)] before its first save, and user 1 as a query returns it. *)
Definition usuario_nuevo : Accounts.User :=
  {| Accounts.pk := None; Accounts.perfilusuario := None |}.

Definition usuario_existente : Accounts.User :=
  {| Accounts.pk := Some 1%nat; Accounts.perfilusuario := None |}.

(** A site whose only user was stored before profiles existed. *)
Definition sitio_sin_perfil : Accounts.DB :=
  {| Accounts.auth_user := {[1%nat]};
     Accounts.accounts_perfilusuario := ∅ |}.

(** User 1 with a profile attached that was never saved. *)
Definition usuario_con_perfil_nuevo : Accounts.User :=
  {| Accounts.pk := Some 1%nat;
     Accounts.perfilusuario := Some (Accounts.PerfilUsuario_init 1) |}.

(** A line of the delivered order that used two of the stored bearings. *)
Definition linea_almacenada : ElementoUsadoOrden.t :=
  {| ElementoUsadoOrden.id := Some 1%nat;
     ElementoUsadoOrden.orden_id := 1;
     ElementoUsadoOrden.elemento_id := 1;
     ElementoUsadoOrden.cantidad_usada := 2;
     ElementoUsadoOrden.precio_unitario := Decimal.mk false 1999 (-2);
     ElementoUsadoOrden.usuario_id := 1 |}.

(** The purchase that brought the ten bearings in. *)
Definition movimiento_almacenado : MovimientoStock.t :=
  {| MovimientoStock.id := Some 1%nat;
     MovimientoStock.elemento_id := 1;
     MovimientoStock.tipo_movimiento := "entrada";
     MovimientoStock.cantidad := 10;
     MovimientoStock.motivo := "Compra";
     MovimientoStock.stock_anterior := 0;
     MovimientoStock.stock_nuevo := 10;
     MovimientoStock.usuario_id := 1 |}.

(** The workshop with that purchase in its ledger, and no order line. *)
Definition taller_con_libro : Mecanico.DB :=
  Mecanico.with_movimientostock taller {[1%nat := movimiento_almacenado]}.

(** A new order that reuses the number of the delivered one. *)
Definition orden_repetida : OrdenTrabajo.t :=
  {| OrdenTrabajo.id := None;
     OrdenTrabajo.numero_orden := "2024-001";
     OrdenTrabajo.cliente_id := 1;
     OrdenTrabajo.tipo_maquina_id := 1;
     OrdenTrabajo.marca_maquina := None;
     OrdenTrabajo.modelo_maquina := None;
     OrdenTrabajo.numero_serie := None;
     OrdenTrabajo.ano_maquina := None;
     OrdenTrabajo.motivo_ingreso := "Ruido";
     OrdenTrabajo.descripcion_trabajo := None;
     OrdenTrabajo.observaciones := None;
     OrdenTrabajo.estado := "ingreso";
     OrdenTrabajo.fecha_estimada_entrega := None;
     OrdenTrabajo.fecha_entrega_real := None;
     OrdenTrabajo.costo_estimado := None;
     OrdenTrabajo.costo_final := None;
     OrdenTrabajo.tecnico_asignado_id := None;
     OrdenTrabajo.usuario_creacion_id := 1 |}.

(** A new order under a number of its own. *)
Definition orden_nueva : OrdenTrabajo.t :=
  {| OrdenTrabajo.id := None;
     OrdenTrabajo.numero_orden := "2024-002";
     OrdenTrabajo.cliente_id := 1;
     OrdenTrabajo.tipo_maquina_id := 1;
     OrdenTrabajo.marca_maquina := None;
     OrdenTrabajo.modelo_maquina := None;
     OrdenTrabajo.numero_serie := None;
     OrdenTrabajo.ano_maquina := None;
     OrdenTrabajo.motivo_ingreso := "Ruido";
     OrdenTrabajo.descripcion_trabajo := None;
     OrdenTrabajo.observaciones := None;
     OrdenTrabajo.estado := "ingreso";
     OrdenTrabajo.fecha_estimada_entrega := None;
     OrdenTrabajo.fecha_entrega_real := None;
     OrdenTrabajo.costo_estimado := None;
     OrdenTrabajo.costo_final := None;
     OrdenTrabajo.tecnico_asignado_id := None;
     OrdenTrabajo.usuario_creacion_id := 1 |}.

(** As many bearings as a 64-bit column can count, at 99,999,999.99. *)
Definition elemento_grande : ElementoMecanico.t :=
  ElementoMecanico.init "R-0001" "Rodamiento" 1 1 1
    (Some 9223372036854775807) None None
    (Some (Decimal.mk false 9999999999 (-2))) None None.

(** A line that uses that many at that price. *)
Definition linea_grande : ElementoUsadoOrden.t :=
  {| ElementoUsadoOrden.id := None;
     ElementoUsadoOrden.orden_id := 1;
     ElementoUsadoOrden.elemento_id := 1;
     ElementoUsadoOrden.cantidad_usada := 9223372036854775807;
     ElementoUsadoOrden.precio_unitario := Decimal.mk false 9999999999 (-2);
     ElementoUsadoOrden.usuario_id := 1 |}.

(** Three bearings and a line of three, built by hand at a price of
    [Decimal("1E+1000000")]. *)
Definition elemento_fuera_de_escala : ElementoMecanico.t :=
  ElementoMecanico.init "R-0001" "Rodamiento" 1 1 1
    (Some 3) None None (Some (Decimal.mk false 1 1000000)) None None.

Definition linea_fuera_de_escala : ElementoUsadoOrden.t :=
  {| ElementoUsadoOrden.id := None;
     ElementoUsadoOrden.orden_id := 1;
     ElementoUsadoOrden.elemento_id := 1;
     ElementoUsadoOrden.cantidad_usada := 3;
     ElementoUsadoOrden.precio_unitario := Decimal.mk false 1 1000000;
     ElementoUsadoOrden.usuario_id := 1 |}.

(** User 1 with its stored profile attached, as after a first access. *)
Definition usuario_con_perfil_cargado : Accounts.User :=
  {| Accounts.pk := Some 1%nat;
     Accounts.perfilusuario := Some perfil_admin |}.

End Ejemplos.

(** * Properties *)

(** ** Decimal arithmetic *)

Section DecimalFacts.
Import Decimal.

Lemma digits_aux_bound (fuel : nat) :
  forall n : N, (n < 2 ^ N.of_nat fuel -> n < 10 ^ digits_aux fuel n)%N.
Proof.
  induction fuel as [|fuel IH]; intros n Hn.
  - simpl in *. lia.
  - cbn [digits_aux]. destruct (N.eqb_spec n 0) as [->|Hnz]; [simpl; lia|].
    assert (Hq : (n / 10 < 2 ^ N.of_nat fuel)%N).
    { rewrite Nnat.Nat2N.inj_succ, N.pow_succ_r' in Hn.
      apply N.Div0.div_lt_upper_bound. lia. }
    specialize (IH _ Hq).
    rewrite N.pow_add_r, N.pow_1_r.
    pose proof (N.div_mod n 10 ltac:(lia)) as Hdm.
    pose proof (N.mod_lt n 10 ltac:(lia)) as Hm.
    lia.
Qed.

(** A number is below the power of ten of its length. *)
Lemma digits_bound (n : N) : (n < 10 ^ digits n)%N.
Proof.
  unfold digits. destruct (N.eqb_spec n 0) as [->|Hnz]; [simpl; lia|].
  apply digits_aux_bound. rewrite Nnat.N2Nat.id. apply N.size_gt.
Qed.

Lemma digits_le_bound (n k : N) : (digits n <= k -> n < 10 ^ k)%N.
Proof.
  intros Hk. eapply N.lt_le_trans; [apply digits_bound|].
  apply N.pow_le_mono_r; lia.
Qed.

Lemma digits_aux_zero (fuel : nat) : Decimal.digits_aux fuel 0 = 0%N.
Proof. now destruct fuel. Qed.

Lemma digits_aux_lower (fuel : nat) :
  forall n : N,
    (n <> 0 -> n < 2 ^ N.of_nat fuel ->
     10 ^ Decimal.digits_aux fuel n <= 10 * n)%N.
Proof.
  induction fuel as [|fuel IH]; intros n Hnz Hn.
  - simpl in Hn. lia.
  - cbn [Decimal.digits_aux]. destruct (N.eqb_spec n 0) as [|_]; [lia|].
    rewrite N.pow_add_r, N.pow_1_r.
    pose proof (N.div_mod n 10 ltac:(lia)) as Hdm.
    destruct (N.eq_dec (n / 10)%N 0%N) as [Hq|Hq].
    + rewrite Hq, digits_aux_zero. simpl. lia.
    + assert (Hlt : (n / 10 < 2 ^ N.of_nat fuel)%N).
      { rewrite Nnat.Nat2N.inj_succ, N.pow_succ_r' in Hn.
        apply N.Div0.div_lt_upper_bound. lia. }
      specialize (IH _ Hq Hlt). clear Hn Hlt.
      set (X := (10 ^ Decimal.digits_aux fuel (n / 10))%N) in *.
      set (q := (n / 10)%N) in *. set (r := (n mod 10)%N) in *.
      clearbody X q r. lia.
Qed.

(** A number that is not zero is at least the power of ten below its
    length. *)
Lemma digits_lower (n : N) :
  (n <> 0 -> 10 ^ Decimal.digits n <= 10 * n)%N.
Proof.
  intros Hnz. unfold Decimal.digits.
  destruct (N.eqb_spec n 0); [contradiction|].
  apply digits_aux_lower; [assumption|].
  rewrite Nnat.N2Nat.id. apply N.size_gt.
Qed.

(** The length of a number that is not zero, by comparison. *)
Lemma digits_le_iff (n k : N) :
  (n <> 0 -> (Decimal.digits n <= k <-> n < 10 ^ k))%N.
Proof.
  intros Hnz. split; [apply digits_le_bound|].
  intros Hlt. destruct (N.le_gt_cases (Decimal.digits n) k) as [|Hgt];
    [assumption|exfalso].
  pose proof (digits_lower n Hnz) as Hlow.
  assert (H10 : (10 ^ (k + 1) <= 10 ^ Decimal.digits n)%N)
    by (apply N.pow_le_mono_r; lia).
  rewrite N.pow_add_r, N.pow_1_r in H10. lia.
Qed.

Lemma digits_pos (n : N) : (1 <= Decimal.digits n)%N.
Proof.
  destruct (N.eq_dec n 0%N) as [->|Hnz]; [vm_compute; discriminate|].
  destruct (N.le_gt_cases 1 (Decimal.digits n)) as [|Hlt]; [assumption|].
  assert (Hz : (Decimal.digits n <= 0)%N) by lia.
  apply digits_le_iff in Hz; [|assumption]. simpl in Hz. lia.
Qed.

Lemma digits_zero : Decimal.digits 0 = 1%N.
Proof. reflexivity. Qed.

(** Within the precision and the exponent limits of the context the
    product is not rounded. *)
Lemma mul_fits (a b : t) :
  (coeff a * coeff b < 10 ^ prec)%N ->
  Etiny <= exp a + exp b <= Etop ->
  mul a b = Some (mul_exact a b).
Proof.
  intros H He. unfold mul, fix_. cbn [mul_exact coeff exp sign].
  assert (Htiny : Etiny = -1000026) by reflexivity.
  assert (Htop : Etop = 999972) by reflexivity.
  assert (Hmax : Emax = 999999) by reflexivity.
  assert (Hprec : Z.of_N prec = 28) by reflexivity.
  destruct (N.eqb_spec (coeff a * coeff b) 0) as [Hz|Hnz].
  - unfold mul_exact. rewrite Hz. do 2 f_equal. lia.
  - assert (Hlen : (digits (coeff a * coeff b) <= prec)%N)
      by now apply digits_le_iff.
    destruct (Z.ltb_spec Etop
                (Z.of_N (digits (coeff a * coeff b)) + (exp a + exp b)
                 - Z.of_N prec)); [lia|].
    destruct (Z.ltb_spec (exp a + exp b)
                (Z.max (Z.of_N (digits (coeff a * coeff b))
                        + (exp a + exp b) - Z.of_N prec) Etiny));
      [lia|reflexivity].
Qed.

Lemma value_of_int (n : Z) : (value (of_int n) == inject_Z n)%Q.
Proof.
  unfold value, of_int. cbn [sign coeff exp].
  rewrite Z2N.id by apply Z.abs_nonneg.
  destruct (Z.ltb_spec n 0) as [Hn|Hn].
  - rewrite Z.abs_neq by lia. rewrite inject_Z_opp. simpl. ring.
  - rewrite Z.abs_eq by lia. simpl. ring.
Qed.

Lemma value_mul_exact (a b : t) :
  (value (mul_exact a b) == value a * value b)%Q.
Proof.
  unfold value, mul_exact. cbn [sign coeff exp].
  rewrite N2Z.inj_mul, inject_Z_mult.
  rewrite Qpower_plus by discriminate.
  destruct (sign a), (sign b); simpl xorb; cbv iota; ring.
Qed.

(** [n * d] for an [int] [n] is exact as long as the digits of [n] times
    the coefficient of [d] fit the precision of the context and the
    exponent of [d] is within its limits. *)
Lemma rmul_exact (d : t) (n : Z) :
  (Z.to_N (Z.abs n) * coeff d < 10 ^ prec)%N ->
  Etiny <= exp d <= Etop ->
  rmul d n = Some (mul_exact d (of_int n))
  /\ (value (mul_exact d (of_int n)) == inject_Z n * value d)%Q.
Proof.
  intros Hfit He. split.
  - apply mul_fits.
    + unfold of_int. cbn [coeff]. now rewrite N.mul_comm.
    + unfold of_int. cbn [exp]. lia.
  - rewrite value_mul_exact, value_of_int. ring.
Qed.

(** Beyond the precision the product is rounded: the largest 64-bit
    quantity at the largest ten-digit price. *)
Example mul_rounds_beyond_precision :
  rmul (mk false 9999999999 (-2)) 9223372036854775807
  = Some (mk false 9223372035932438603314522419 (-1))
  /\ mul_exact (mk false 9999999999 (-2)) (of_int 9223372036854775807)
     = mk false 92233720359324386033145224193 (-2).
Proof. split; vm_compute; reflexivity. Qed.

(** Beyond the exponent limits the product raises [Overflow] or is
    rounded away. *)
Example mul_beyond_exponent_limits :
  rmul (mk false 1 1000000) 3 = None
  /\ rmul (mk false 1 (-1000027)) 3 = Some (mk false 0 (-1000026)).
Proof. split; vm_compute; reflexivity. Qed.

End DecimalFacts.

(** ** Field cleaning *)

Section CleaningFacts.
Import Django.

Lemma on_nil (field : string) (errors : list Code) :
  on field errors = [] <-> errors = [].
Proof. destruct errors; simpl; split; congruence. Qed.

Lemma in_on (field name : string) (c : Code) (errors : list Code) :
  In (name, c) (on field errors) <-> name = field /\ In c errors.
Proof.
  unfold on. rewrite in_map_iff. split.
  - intros (x & [= <- <-] & Hx). auto.
  - intros [-> Hc]. eauto.
Qed.

(** A required integer column with one declared minimum accepts the
    values from that minimum on that are within the range of the
    connection. *)
Lemma IntegerField_min (range : option Z * option Z) (limit c : Z) :
  IntegerField range required [Min limit] (Some c) = []
  <-> limit <= c /\ in_range range c.
Proof.
  destruct range as [[lo|] [hi|]];
    unfold IntegerField, IntegerField_validators, in_range; cbn;
    repeat first
      [ progress unfold MinValueValidator, MaxValueValidator
      | match goal with
        | |- context [Z.ltb ?a ?b] => destruct (Z.ltb_spec a b)
        | |- context [Z.leb ?a ?b] => destruct (Z.leb_spec a b)
        end
      | progress cbn ];
    split; intros; try discriminate; try reflexivity;
    solve [lia | exfalso; lia].
Qed.

(** A required integer column without declared validators accepts the
    whole range of the connection, negative values included. *)
Lemma IntegerField_plain (range : option Z * option Z) (c : Z) :
  IntegerField range required [] (Some c) = [] <-> in_range range c.
Proof.
  destruct range as [[lo|] [hi|]];
    unfold IntegerField, IntegerField_validators, in_range; cbn;
    repeat first
      [ progress unfold MinValueValidator, MaxValueValidator
      | match goal with
        | |- context [Z.ltb ?a ?b] => destruct (Z.ltb_spec a b)
        end
      | progress cbn ];
    split; intros; try discriminate; try reflexivity;
    solve [lia | exfalso; lia].
Qed.

(** A decimal that passes [DecimalValidator(10, 2)] has a coefficient of
    at most ten digits. *)
Lemma DecimalValidator_coeff (d : Decimal.t) :
  DecimalValidator 10 2 d = [] -> (Decimal.coeff d < 10 ^ 10)%N.
Proof.
  unfold DecimalValidator.
  pose proof (digits_bound (Decimal.coeff d)) as Hb.
  set (len := Decimal.digits (Decimal.coeff d)) in *.
  intros H. apply digits_le_bound. fold len. revert H.
  destruct (Z.leb_spec 0 (Decimal.exp d)) as [He|He].
  - destruct (N.eqb_spec (Decimal.coeff d) 0) as [Hz|Hz].
    + intros _. subst len. rewrite Hz. vm_compute. discriminate.
    + destruct (N.ltb_spec 10 (len + Z.to_N (Decimal.exp d))); [discriminate|lia].
  - destruct (N.ltb_spec len (Z.to_N (- Decimal.exp d))) as [Hl|Hl].
    + destruct (N.ltb_spec 10 (Z.to_N (- Decimal.exp d))); [discriminate|].
      destruct (N.ltb_spec 2 (Z.to_N (- Decimal.exp d))); [discriminate|lia].
    + destruct (N.ltb_spec 10 len); [discriminate|lia].
Qed.

Lemma DecimalField_coeff (o : Options) (d : Decimal.t) :
  DecimalField 10 2 o (Some d) = [] -> (Decimal.coeff d < 10 ^ 10)%N.
Proof.
  unfold DecimalField, clean_field, clean, validate, run_validators.
  cbn [empty_other andb negb flat_map].
  rewrite !andb_false_r, app_nil_r.
  apply DecimalValidator_coeff.
Qed.

End CleaningFacts.

(** ** The derived properties of the inventory *)

Section Inventory.
Import Django Ejemplos.

(** C2.  [stock_bajo] is true exactly when the current quantity is at
    most the minimum threshold.  The equivalence holds for every pair of
    integers an item can hold, the non-negative ones in particular. *)
Theorem stock_bajo_iff (e : ElementoMecanico.t) :
  ElementoMecanico.stock_bajo e = true
  <-> ElementoMecanico.cantidad_actual e <= ElementoMecanico.stock_minimo e.
Proof. unfold ElementoMecanico.stock_bajo. apply Z.leb_le. Qed.

(** C9.  An item built without values for its stock columns takes the
    defaults (quantity 0, threshold 5) and is low on stock from the
    start, whatever its other columns hold. *)
Theorem stock_bajo_on_creation (codigo nombre : string)
    (categoria_id ubicacion_id usuario_creacion_id : nat)
    (unidad_medida : option string)
    (precio_compra precio_venta : option Decimal.t) (activo : option bool) :
  let e := ElementoMecanico.init codigo nombre categoria_id ubicacion_id
             usuario_creacion_id None None unidad_medida precio_compra
             precio_venta activo in
  ElementoMecanico.cantidad_actual e = 0
  /\ ElementoMecanico.stock_minimo e = 5
  /\ ElementoMecanico.stock_bajo e = true.
Proof. cbn. repeat split. Qed.

(** C7, as the code has it.  [valor_total_stock] is the quantity times
    the purchase price when a price is set, the digits of the quantity
    times those of the price stay below the 28 digits of the decimal
    context, and the exponent of the price is within the limits of the
    context (a price of zero gives the integer 0, which is that product);
    it is the integer 0 when no price is set. *)
Theorem valor_total_stock_spec (e : ElementoMecanico.t) :
  (forall precio, ElementoMecanico.precio_compra e = Some precio ->
     (Z.to_N (Z.abs (ElementoMecanico.cantidad_actual e))
      * Decimal.coeff precio < 10 ^ 28)%N
     /\ Decimal.Etiny <= Decimal.exp precio <= Decimal.Etop) ->
  match ElementoMecanico.precio_compra e with
  | Some precio =>
      exists total,
        ElementoMecanico.valor_total_stock e = Some total
        /\ (Python.value total
            == inject_Z (ElementoMecanico.cantidad_actual e)
               * Decimal.value precio)%Q
  | None => ElementoMecanico.valor_total_stock e = Some (Python.Int 0)
  end.
Proof.
  intros Hfit. unfold ElementoMecanico.valor_total_stock.
  destruct (ElementoMecanico.precio_compra e) as [precio|]; [|reflexivity].
  destruct (Hfit precio eq_refl) as [Hprec Hexp].
  unfold Decimal.to_bool.
  destruct (N.eqb_spec (Decimal.coeff precio) 0) as [Hz|Hz]; cbn [negb].
  - exists (Python.Int 0). split; [reflexivity|].
    unfold Python.value, Decimal.value. rewrite Hz. simpl inject_Z. ring.
  - destruct (rmul_exact precio (ElementoMecanico.cantidad_actual e)
                Hprec Hexp) as [Hmul Hval].
    rewrite Hmul. cbn [option_map]. eexists. split; [reflexivity|].
    exact Hval.
Qed.

Lemma valor_total_stock_spec_witness :
  ((Z.to_N (Z.abs (ElementoMecanico.cantidad_actual elemento_ejemplo))
    * Decimal.coeff (Decimal.mk false 1250 (-2)) < 10 ^ 28)%N
   /\ Decimal.Etiny <= Decimal.exp (Decimal.mk false 1250 (-2))
      <= Decimal.Etop)
  /\ exists total,
       ElementoMecanico.valor_total_stock elemento_ejemplo = Some total
       /\ (Python.value total
           == inject_Z 3 * Decimal.value (Decimal.mk false 1250 (-2)))%Q.
Proof.
  split; [split; [reflexivity|cbv; split; discriminate]|].
  apply (valor_total_stock_spec elemento_ejemplo).
  intros precio [= <-]. split; [reflexivity|cbv; split; discriminate].
Defined.

(** C7, as the claim has it, fails beyond the precision of the context:
    an item that passes validation on a 64-bit backend, with the largest
    quantity and the largest price, has a [valor_total_stock] that is not
    the product.  It fails beyond the exponent limits too: on an item
    built by hand at a price of [1E+1000000] the product raises
    [Overflow]. *)
Lemma valor_total_stock_rounded :
  ElementoMecanico.valor_total_stock elemento_fuera_de_escala = None
  /\ ElementoMecanico.full_clean (Mecanico.keys taller)
    (Mecanico.elementomecanico taller) elemento_grande = []
  /\ ElementoMecanico.valor_total_stock elemento_grande
     = Some (Python.Dec
               (Decimal.mk false 9223372035932438603314522419 (-1)))
  /\ ~ (Decimal.value (Decimal.mk false 9223372035932438603314522419 (-1))
        == inject_Z 9223372036854775807
           * Decimal.value (Decimal.mk false 9999999999 (-2)))%Q.
Proof.
  split; [vm_compute; reflexivity|].
  split; [vm_compute; reflexivity|]. split; [vm_compute; reflexivity|].
  unfold Qeq. vm_compute. discriminate.
Qed.

(** C8, as the code has it.  [subtotal] is the quantity times the unit
    price with nothing rounded away (the coefficient is the product of
    the coefficients, the exponent the one of the price) whenever the
    digits of the quantity times those of the price stay below the 28
    digits of the decimal context and the exponent of the price is within
    the limits of the context. *)
Theorem subtotal_exact (l : ElementoUsadoOrden.t) :
  (Z.to_N (Z.abs (ElementoUsadoOrden.cantidad_usada l))
   * Decimal.coeff (ElementoUsadoOrden.precio_unitario l) < 10 ^ 28)%N ->
  Decimal.Etiny <= Decimal.exp (ElementoUsadoOrden.precio_unitario l)
  <= Decimal.Etop ->
  exists d,
    ElementoUsadoOrden.subtotal l = Some d
    /\ d = Decimal.mul_exact (ElementoUsadoOrden.precio_unitario l)
             (Decimal.of_int (ElementoUsadoOrden.cantidad_usada l))
    /\ (Decimal.value d
        == inject_Z (ElementoUsadoOrden.cantidad_usada l)
           * Decimal.value (ElementoUsadoOrden.precio_unitario l))%Q.
Proof.
  intros Hfit Hexp.
  destruct (rmul_exact (ElementoUsadoOrden.precio_unitario l)
              (ElementoUsadoOrden.cantidad_usada l) Hfit Hexp)
    as [Hmul Hval].
  eexists. split; [exact Hmul|]. split; [reflexivity|exact Hval].
Qed.

Lemma subtotal_exact_witness :
  (Z.to_N (Z.abs (ElementoUsadoOrden.cantidad_usada linea_ejemplo))
   * Decimal.coeff (ElementoUsadoOrden.precio_unitario linea_ejemplo)
   < 10 ^ 28)%N
  /\ Decimal.Etiny
     <= Decimal.exp (ElementoUsadoOrden.precio_unitario linea_ejemplo)
     <= Decimal.Etop
  /\ ElementoUsadoOrden.subtotal linea_ejemplo
     = Some (Decimal.mk false 13993 (-2)).
Proof.
  assert (Hfit : (Z.to_N (Z.abs (ElementoUsadoOrden.cantidad_usada
                                   linea_ejemplo))
                  * Decimal.coeff (ElementoUsadoOrden.precio_unitario
                                     linea_ejemplo) < 10 ^ 28)%N)
    by reflexivity.
  assert (Hexp : Decimal.Etiny
                 <= Decimal.exp (ElementoUsadoOrden.precio_unitario
                                   linea_ejemplo)
                 <= Decimal.Etop) by (cbv; split; discriminate).
  split; [exact Hfit|]. split; [exact Hexp|].
  destruct (subtotal_exact linea_ejemplo Hfit Hexp) as (d & Hs & Hd & _).
  rewrite Hs, Hd. reflexivity.
Defined.

(** C8, as the claim has it, fails beyond the precision of the context:
    a line that passes validation on a 64-bit backend, with the largest
    quantity and the largest price, has a 29-digit product, and its
    [subtotal] is that product rounded to 28 digits.  It fails beyond
    the exponent limits too: on a line built by hand at a price of
    [1E+1000000] the product raises [Overflow]. *)
Lemma subtotal_rounded :
  ElementoUsadoOrden.subtotal linea_fuera_de_escala = None
  /\ ElementoUsadoOrden.full_clean (Mecanico.keys taller) linea_grande = []
  /\ ElementoUsadoOrden.subtotal linea_grande
     = Some (Decimal.mk false 9223372035932438603314522419 (-1))
  /\ Decimal.mul_exact (ElementoUsadoOrden.precio_unitario linea_grande)
       (Decimal.of_int (ElementoUsadoOrden.cantidad_usada linea_grande))
     = Decimal.mk false 92233720359324386033145224193 (-2)
  /\ ~ (Decimal.value (Decimal.mk false 9223372035932438603314522419 (-1))
        == inject_Z (ElementoUsadoOrden.cantidad_usada linea_grande)
           * Decimal.value (ElementoUsadoOrden.precio_unitario linea_grande))%Q.
Proof.
  split; [vm_compute; reflexivity|].
  split; [vm_compute; reflexivity|]. split; [vm_compute; reflexivity|].
  split; [vm_compute; reflexivity|].
  unfold Qeq. vm_compute. discriminate.
Qed.

End Inventory.

(** ** The state of a work order *)

Section Workflow.
Import Django Ejemplos.

Lemma estados_choices : map fst OrdenTrabajo.ESTADO_CHOICES = OrdenTrabajo.estados.
Proof. reflexivity. Qed.

(** The [estado] column cleans without error exactly on the seven keys. *)
Lemma clean_estado_ok (value : string) :
  OrdenTrabajo.clean_estado value = [] <-> In value OrdenTrabajo.estados.
Proof.
  split.
  - intros H.
    destruct (existsb (String.eqb value) OrdenTrabajo.estados) eqn:E.
    + apply existsb_exists in E as (x & Hx & Heq).
      apply String.eqb_eq in Heq. now subst.
    + exfalso. revert H.
      unfold OrdenTrabajo.clean_estado, CharField, clean_field, clean, validate.
      rewrite estados_choices, E. cbn [required blank null andb negb empty_other].
      unfold empty_text. destruct (String.eqb value ""); cbn; discriminate.
  - intros H. unfold OrdenTrabajo.estados in H. cbn [In] in H.
    repeat (destruct H as [<-|H]; [reflexivity|]). contradiction.
Qed.

(** The errors [full_clean] files under [estado] are those of the cleaning
    of that column. *)
Lemma full_clean_estado (keys : PrimaryKeys) (table : gmap nat OrdenTrabajo.t)
    (o : OrdenTrabajo.t) (c : Code) :
  In ("estado"%string, c) (OrdenTrabajo.full_clean keys table o)
  <-> In c (OrdenTrabajo.clean_estado (OrdenTrabajo.estado o)).
Proof.
  unfold OrdenTrabajo.full_clean, OrdenTrabajo.validate_unique,
    OrdenTrabajo.clean_fields.
  destruct (excluded _ _);
    repeat rewrite in_app_iff; repeat rewrite in_on; cbn [In];
    intuition discriminate.
Qed.

(** C4.  The state column accepts exactly the seven enumerated values:
    validation files no error under [estado] when the value is one of
    them, and rejects the work order when it is any other value. *)
Theorem estado_accepts_exactly_the_choices (keys : PrimaryKeys)
    (table : gmap nat OrdenTrabajo.t) (o : OrdenTrabajo.t) :
  (In (OrdenTrabajo.estado o) OrdenTrabajo.estados
   <-> forall c, ~ In ("estado"%string, c)
                    (OrdenTrabajo.full_clean keys table o))
  /\ (~ In (OrdenTrabajo.estado o) OrdenTrabajo.estados
      -> exists c, In ("estado"%string, c)
                     (OrdenTrabajo.full_clean keys table o)).
Proof.
  assert (Hno : ~ In (OrdenTrabajo.estado o) OrdenTrabajo.estados ->
                exists c, In ("estado"%string, c)
                            (OrdenTrabajo.full_clean keys table o)).
  { intros Hn. rewrite <- clean_estado_ok in Hn.
    destruct (OrdenTrabajo.clean_estado (OrdenTrabajo.estado o)) as [|c l] eqn:E;
      [contradiction|].
    exists c. apply full_clean_estado. rewrite E. now left. }
  split; [split|exact Hno].
  - intros Hin c Hc. apply full_clean_estado in Hc.
    apply clean_estado_ok in Hin. rewrite Hin in Hc. contradiction.
  - intros Hall.
    destruct (in_dec string_dec (OrdenTrabajo.estado o) OrdenTrabajo.estados) as [|Hn];
      [assumption|].
    destruct (Hno Hn) as (c & Hc). now apply Hall in Hc.
Qed.

(** *** Changes of state *)

Lemma unique_check_nil {R V : Type} (eqb : V -> V -> bool) (column : R -> V)
    (table : gmap nat R) (pk : option nat) (v : V) :
  unique_check eqb column table pk v = []
  <-> forall j r, table !! j = Some r -> pk <> Some j ->
                  eqb (column r) v = false.
Proof.
  unfold unique_check.
  destruct (existsb _ _) eqn:E.
  - split; [discriminate|]. intros Hall. exfalso.
    apply existsb_exists in E as ([j r] & Hin & Hf).
    apply list_elem_of_In, elem_of_map_to_list in Hin.
    apply andb_prop in Hf as [He Hp]. cbn in He, Hp.
    apply negb_true_iff, bool_decide_eq_false in Hp.
    rewrite (Hall j r Hin Hp) in He. discriminate.
  - split; [|reflexivity]. intros _ j r Hl Hp.
    destruct (eqb (column r) v) eqn:He; [|reflexivity].
    assert (X : existsb (fun kr : nat * R =>
                  eqb (column kr.2) v && negb (bool_decide (pk = Some kr.1)))
                  (map_to_list table) = true).
    { apply existsb_exists. exists (j, r). split.
      - apply list_elem_of_In, elem_of_map_to_list, Hl.
      - cbn. rewrite He. cbn. apply negb_true_iff, bool_decide_eq_false, Hp. }
    congruence.
Qed.

(** Rewriting the row of the instance leaves its unique check as it was. *)
Lemma unique_check_insert {R V : Type} (eqb : V -> V -> bool)
    (column : R -> V) (table : gmap nat R) (k : nat) (row : R) (v : V) :
  unique_check eqb column table (Some k) v = [] ->
  unique_check eqb column (<[k := row]> table) (Some k) v = [].
Proof.
  rewrite !unique_check_nil. intros H j r Hl Hp.
  assert (j <> k) by congruence.
  rewrite lookup_insert_ne in Hl by congruence. eauto.
Qed.

Lemma ForeignKey_required_ok (target : gset nat) (k : nat) :
  ForeignKey target required (Some k) = [] -> k ∈ target.
Proof.
  unfold ForeignKey, clean_field, clean, validate, run_validators. cbn.
  destruct (bool_decide_reflect (k ∈ target)); [auto|discriminate].
Qed.

Lemma ForeignKey_optional_ok (target : gset nat) (v : option nat) :
  ForeignKey target optional v = [] ->
  match v with Some k => k ∈ target | None => True end.
Proof.
  destruct v as [k|]; [|auto].
  unfold ForeignKey, clean_field, clean, validate, run_validators. cbn.
  destruct (bool_decide_reflect (k ∈ target)); [auto|discriminate].
Qed.

Lemma set_estado_id (o : OrdenTrabajo.t) (k : nat) (value : string) :
  OrdenTrabajo.id o = Some k ->
  OrdenTrabajo.set_id (OrdenTrabajo.set_estado o value) k
  = OrdenTrabajo.set_estado o value.
Proof. destruct o. cbn. now intros ->. Qed.

Lemma set_estado_same (o : OrdenTrabajo.t) :
  OrdenTrabajo.set_estado o (OrdenTrabajo.estado o) = o.
Proof. now destruct o. Qed.

(** A valid order stays valid when its state becomes another of the seven
    values. *)
Lemma full_clean_set_estado (keys : PrimaryKeys)
    (table : gmap nat OrdenTrabajo.t) (o : OrdenTrabajo.t) (value : string) :
  OrdenTrabajo.full_clean keys table o = [] -> In value OrdenTrabajo.estados ->
  OrdenTrabajo.full_clean keys table (OrdenTrabajo.set_estado o value) = [].
Proof.
  intros H Hv. apply clean_estado_ok in Hv.
  unfold OrdenTrabajo.full_clean in *.
  apply app_eq_nil in H as [Hc Hu]. rewrite Hc in Hu.
  assert (Hc' : OrdenTrabajo.clean_fields keys (OrdenTrabajo.set_estado o value)
                = []).
  { unfold OrdenTrabajo.clean_fields in *. cbn [OrdenTrabajo.set_estado
      OrdenTrabajo.numero_orden OrdenTrabajo.cliente_id
      OrdenTrabajo.tipo_maquina_id OrdenTrabajo.marca_maquina
      OrdenTrabajo.modelo_maquina OrdenTrabajo.numero_serie
      OrdenTrabajo.ano_maquina OrdenTrabajo.motivo_ingreso
      OrdenTrabajo.descripcion_trabajo OrdenTrabajo.observaciones
      OrdenTrabajo.estado OrdenTrabajo.fecha_estimada_entrega
      OrdenTrabajo.fecha_entrega_real OrdenTrabajo.costo_estimado
      OrdenTrabajo.costo_final OrdenTrabajo.tecnico_asignado_id
      OrdenTrabajo.usuario_creacion_id].
    repeat (apply app_eq_nil in Hc as [?H Hc]).
    rewrite Hv. repeat match goal with E : on _ _ = [] |- _ => rewrite E; clear E end.
    reflexivity. }
  rewrite Hc'. exact Hu.
Qed.

(** A valid stored order whose state is set to one of the seven values is
    saved, and is valid again in the tables that result. *)
Lemma update_estado_ok (db : Mecanico.DB) (o : OrdenTrabajo.t) (k : nat)
    (value : string) :
  OrdenTrabajo.id o = Some k ->
  OrdenTrabajo.full_clean (Mecanico.keys db) (Mecanico.ordentrabajo db) o = [] ->
  In value OrdenTrabajo.estados ->
  let o' := OrdenTrabajo.set_estado o value in
  let db' := Mecanico.with_ordentrabajo db
               (<[k := o']> (Mecanico.ordentrabajo db)) in
  Mecanico.update_estado db o value = Mecanico.Saved o' db'
  /\ OrdenTrabajo.full_clean (Mecanico.keys db') (Mecanico.ordentrabajo db') o'
     = [].
Proof.
  intros Hid Hok Hv o' db'.
  pose proof (full_clean_set_estado _ _ _ _ Hok Hv) as Hok'. fold o' in Hok'.
  assert (Hid' : OrdenTrabajo.id o' = Some k) by (subst o'; now destruct o).
  pose proof Hok' as Hparts. unfold OrdenTrabajo.full_clean in Hparts.
  apply app_eq_nil in Hparts as [Hc Hu]. rewrite Hc in Hu.
  unfold OrdenTrabajo.validate_unique in Hu.
  cbn [names map excluded existsb] in Hu.
  apply on_nil in Hu. rewrite Hid' in Hu.
  split.
  - unfold Mecanico.update_estado. fold o'. rewrite Hok'.
    unfold Mecanico.OrdenTrabajo_save. rewrite Hid'. cbn [default from_option Datatypes.id].
    unfold OrdenTrabajo.clean_fields in Hc.
    repeat (apply app_eq_nil in Hc as [?H Hc]).
    repeat match goal with E : on _ _ = [] |- _ => apply on_nil in E end.
    repeat match goal with
      | E : ForeignKey _ required _ = [] |- _ =>
          apply ForeignKey_required_ok in E
      | E : ForeignKey _ optional _ = [] |- _ =>
          apply ForeignKey_optional_ok in E
      end.
    cbn [Mecanico.keys pk_Cliente pk_TipoMaquina pk_User] in *.
    rewrite !bool_decide_eq_true_2 by assumption.
    replace (match OrdenTrabajo.tecnico_asignado_id o' with
             | Some u => bool_decide (u ∈ Mecanico.auth_user db)
             | None => true
             end) with true
      by (destruct (OrdenTrabajo.tecnico_asignado_id o');
          [now rewrite bool_decide_eq_true_2|reflexivity]).
    rewrite Hu. cbn [andb].
    subst o'. rewrite (set_estado_id _ _ _ Hid). reflexivity.
  - unfold OrdenTrabajo.full_clean.
    change (OrdenTrabajo.clean_fields (Mecanico.keys db') o')
      with (OrdenTrabajo.clean_fields (Mecanico.keys db) o').
    rewrite Hc. cbn [app names map].
    unfold OrdenTrabajo.validate_unique. cbn [excluded existsb].
    apply on_nil. rewrite Hid'. subst db'. cbn [Mecanico.with_ordentrabajo
      Mecanico.ordentrabajo]. now apply unique_check_insert.
Qed.

Lemma last_cons_default {A : Type} (x d : A) (l : list A) :
  List.last (x :: l) d = List.last l x.
Proof.
  revert x d. induction l as [|y l IH]; intros x d; [reflexivity|].
  change (List.last (x :: y :: l) d) with (List.last (y :: l) d).
  now rewrite !IH.
Qed.

(** C5, as the code has it.  The state column holds one of the seven
    values and nothing orders them: from any state of a valid stored
    order, every sequence of changes of state to values among the seven,
    each made on the result of the one before, is accepted, whatever
    their order, and ends in the last value written. *)
Theorem estado_any_order (values : list string) :
  forall (db : Mecanico.DB) (o : OrdenTrabajo.t) (k : nat),
  OrdenTrabajo.id o = Some k ->
  OrdenTrabajo.full_clean (Mecanico.keys db) (Mecanico.ordentrabajo db) o = [] ->
  Forall (fun value => In value OrdenTrabajo.estados) values ->
  exists db',
    fold_left (fun result value =>
                 match result with
                 | Mecanico.Saved o1 db1 => Mecanico.update_estado db1 o1 value
                 | failure => failure
                 end) values (Mecanico.Saved o db)
    = Mecanico.Saved
        (OrdenTrabajo.set_estado o (List.last values (OrdenTrabajo.estado o)))
        db'
    /\ (values <> [] ->
        Mecanico.ordentrabajo db' !! k
        = Some (OrdenTrabajo.set_estado o
                  (List.last values (OrdenTrabajo.estado o)))).
Proof.
  induction values as [|value rest IH]; intros db o k Hid Hok Hall.
  - exists db. cbn. rewrite set_estado_same. split; [reflexivity|congruence].
  - inversion Hall as [|? ? Hv Hrest]; subst.
    destruct (update_estado_ok db o k value Hid Hok Hv) as [Hstep Hok'].
    cbn [fold_left]. rewrite Hstep.
    set (o' := OrdenTrabajo.set_estado o value) in *.
    set (db1 := Mecanico.with_ordentrabajo db _) in *.
    assert (Hid' : OrdenTrabajo.id o' = Some k) by (subst o'; now destruct o).
    destruct (IH db1 o' k Hid' Hok' Hrest) as (db' & Hrun & Hstored).
    rewrite last_cons_default.
    change (OrdenTrabajo.estado o') with value in *.
    change (OrdenTrabajo.set_estado o' (List.last rest value))
      with (OrdenTrabajo.set_estado o (List.last rest value)) in *.
    exists db'. split; [exact Hrun|]. intros _.
    destruct rest as [|v2 rest'].
    + cbn in Hrun. injection Hrun as <-. subst db1.
      cbn. apply lookup_insert_eq.
    + apply Hstored. discriminate.
Qed.

Lemma estado_any_order_witness :
  OrdenTrabajo.id orden_entregada = Some 1%nat
  /\ OrdenTrabajo.full_clean (Mecanico.keys taller)
       (Mecanico.ordentrabajo taller) orden_entregada = []
  /\ exists db',
       fold_left (fun result value =>
                    match result with
                    | Mecanico.Saved o1 db1 =>
                        Mecanico.update_estado db1 o1 value
                    | failure => failure
                    end) ["ingreso"; "terminado"; "presupuesto"]%string
         (Mecanico.Saved orden_entregada taller)
       = Mecanico.Saved (OrdenTrabajo.set_estado orden_entregada "presupuesto")
           db'.
Proof.
  split; [reflexivity|]. split; [vm_compute; reflexivity|].
  destruct (estado_any_order ["ingreso"; "terminado"; "presupuesto"]%string
              taller orden_entregada 1%nat) as (db' & Hrun & _).
  - reflexivity.
  - vm_compute; reflexivity.
  - repeat constructor; cbn; tauto.
  - exists db'. exact Hrun.
Defined.

(** C5, as the claim has it, fails: a delivered order is set back to
    intake, the change passes validation and is stored, and [ingreso]
    comes five places before [entregado] in the workflow. *)
Lemma estado_moves_backward :
  exists o' db',
    OrdenTrabajo.estado orden_entregada = "entregado"%string
    /\ Mecanico.update_estado taller orden_entregada "ingreso"%string
       = Mecanico.Saved o' db'
    /\ Mecanico.ordentrabajo db' !! 1%nat = Some o'
    /\ OrdenTrabajo.estado o' = "ingreso"%string
    /\ OrdenTrabajo.position "entregado" OrdenTrabajo.ESTADO_CHOICES
       = Some 5%nat
    /\ OrdenTrabajo.position "ingreso" OrdenTrabajo.ESTADO_CHOICES
       = Some 0%nat.
Proof.
  eexists _, _. split; [reflexivity|].
  split; [vm_compute; reflexivity|].
  split; [vm_compute; reflexivity|].
  repeat split.
Qed.

End Workflow.

(** ** Validation of items and stock movements *)

Section Ledger.
Import Django Ejemplos.

Lemma excluded_app (field : string) (l1 l2 : ErrorDict) :
  excluded field (names (l1 ++ l2))
  = excluded field (names l1) || excluded field (names l2).
Proof. unfold excluded, names. now rewrite map_app, existsb_app. Qed.

Lemma excluded_on_other (field name : string) (errors : list Code) :
  String.eqb field name = false -> excluded field (names (on name errors)) = false.
Proof.
  intros H. unfold excluded, names, on. rewrite map_map. cbn.
  induction errors as [|c l IH]; cbn; [reflexivity|]. now rewrite H.
Qed.

Lemma excluded_on_same (field : string) (errors : list Code) :
  excluded field (names (on field errors)) = true <-> errors <> [].
Proof.
  unfold excluded, names, on. rewrite map_map. cbn.
  destruct errors as [|c l]; cbn.
  - split; [discriminate|congruence].
  - rewrite String.eqb_refl. cbn. split; [discriminate|reflexivity].
Qed.

Lemma MaxLengthValidator_code (limit : nat) (s : string) (c : Code) :
  In c (MaxLengthValidator limit s) -> c = MaxLength.
Proof.
  unfold MaxLengthValidator. destruct (limit <? len s)%nat; cbn;
    intuition congruence.
Qed.

(** What a required text column reports as blank. *)
Lemma CharField_blank (max_length : nat) (s : string) :
  In Blank (CharField max_length required None (Some s)) <-> s = ""%string.
Proof.
  unfold CharField, clean_field, clean, validate, run_validators.
  cbn [required blank null andb negb empty_other empty_text flat_map].
  rewrite app_nil_r.
  destruct (String.eqb_spec s ""); cbn [In].
  - intuition congruence.
  - split; [|congruence]. intros H.
    apply MaxLengthValidator_code in H. discriminate.
Qed.

Lemma CharField_never_unique (max_length : nat) (s : string) :
  ~ In Unique (CharField max_length required None (Some s)).
Proof.
  unfold CharField, clean_field, clean, validate, run_validators.
  cbn [required blank null andb negb empty_other empty_text flat_map].
  rewrite app_nil_r.
  destruct (String.eqb s ""); cbn [In].
  - intuition congruence.
  - intros H. apply MaxLengthValidator_code in H. discriminate.
Qed.

Lemma TextField_blank (s : string) :
  In Blank (TextField required (Some s)) <-> s = ""%string.
Proof.
  unfold TextField, clean_field, clean, validate, run_validators.
  cbn [required blank null andb negb empty_other empty_text flat_map].
  destruct (String.eqb_spec s ""); cbn; intuition congruence.
Qed.

(** What an integer column reports as below its minimum: a value under
    the declared minimum, or under the lower bound of the connection. *)
Lemma IntegerField_min_value (range : option Z * option Z) (limit c : Z) :
  In MinValue (IntegerField range required [Min limit] (Some c))
  <-> c < limit \/ below_range range c.
Proof.
  destruct range as [[lo|] [hi|]];
    unfold IntegerField, IntegerField_validators, below_range; cbn;
    repeat first
      [ progress unfold MinValueValidator, MaxValueValidator
      | match goal with
        | |- context [Z.ltb ?a ?b] => destruct (Z.ltb_spec a b)
        | |- context [Z.leb ?a ?b] => destruct (Z.leb_spec a b)
        end
      | progress cbn ];
    intuition (try discriminate; try lia).
Qed.

Lemma IntegerField_plain_min_value (range : option Z * option Z) (c : Z) :
  In MinValue (IntegerField range required [] (Some c))
  <-> below_range range c.
Proof.
  destruct range as [[lo|] [hi|]];
    unfold IntegerField, IntegerField_validators, below_range; cbn;
    repeat first
      [ progress unfold MinValueValidator, MaxValueValidator
      | match goal with
        | |- context [Z.ltb ?a ?b] => destruct (Z.ltb_spec a b)
        end
      | progress cbn ];
    intuition (try discriminate; try lia).
Qed.

(** The errors [full_clean] files under one column of an item or of a
    movement are those of the cleaning of that column. *)
Ltac by_column :=
  unfold ElementoMecanico.full_clean, ElementoMecanico.validate_unique,
    ElementoMecanico.clean_fields, MovimientoStock.full_clean,
    MovimientoStock.clean_fields;
  try destruct (excluded _ _);
  repeat rewrite in_app_iff; repeat rewrite in_on; cbn [In];
  intuition discriminate.

Lemma full_clean_cantidad_actual keys table e c :
  In ("cantidad_actual"%string, c) (ElementoMecanico.full_clean keys table e)
  <-> In c (IntegerField (integer_field_range keys) required [Min 0]
              (Some (ElementoMecanico.cantidad_actual e))).
Proof. by_column. Qed.

Lemma full_clean_stock_minimo keys table e c :
  In ("stock_minimo"%string, c) (ElementoMecanico.full_clean keys table e)
  <-> In c (IntegerField (integer_field_range keys) required [Min 0]
              (Some (ElementoMecanico.stock_minimo e))).
Proof. by_column. Qed.

Lemma full_clean_nombre keys table e c :
  In ("nombre"%string, c) (ElementoMecanico.full_clean keys table e)
  <-> In c (CharField 200 required None (Some (ElementoMecanico.nombre e))).
Proof. by_column. Qed.

Lemma full_clean_cantidad keys m c :
  In ("cantidad"%string, c) (MovimientoStock.full_clean keys m)
  <-> In c (IntegerField (integer_field_range keys) required [Min 1]
              (Some (MovimientoStock.cantidad m))).
Proof. by_column. Qed.

Lemma full_clean_motivo keys m c :
  In ("motivo"%string, c) (MovimientoStock.full_clean keys m)
  <-> In c (TextField required (Some (MovimientoStock.motivo m))).
Proof. by_column. Qed.

Lemma full_clean_stock_anterior keys m c :
  In ("stock_anterior"%string, c) (MovimientoStock.full_clean keys m)
  <-> In c (IntegerField (integer_field_range keys) required []
              (Some (MovimientoStock.stock_anterior m))).
Proof. by_column. Qed.

Lemma full_clean_stock_nuevo keys m c :
  In ("stock_nuevo"%string, c) (MovimientoStock.full_clean keys m)
  <-> In c (IntegerField (integer_field_range keys) required []
              (Some (MovimientoStock.stock_nuevo m))).
Proof. by_column. Qed.

(** [codigo] is left out of the unique checks exactly when its own
    cleaning failed. *)
Lemma excluded_codigo keys e :
  excluded "codigo" (names (ElementoMecanico.clean_fields keys e))
  = match CharField 50 required None (Some (ElementoMecanico.codigo e)) with
    | [] => false
    | _ => true
    end.
Proof.
  unfold ElementoMecanico.clean_fields.
  destruct (CharField 50 required None (Some (ElementoMecanico.codigo e)));
    [|reflexivity].
  cbn [on map app].
  rewrite !excluded_app.
  rewrite !excluded_on_other by reflexivity. reflexivity.
Qed.

Lemma full_clean_codigo keys table e c :
  In ("codigo"%string, c) (ElementoMecanico.full_clean keys table e)
  <-> In c (CharField 50 required None (Some (ElementoMecanico.codigo e)))
      \/ (CharField 50 required None (Some (ElementoMecanico.codigo e)) = []
          /\ In c (unique_check String.eqb ElementoMecanico.codigo table
                     (ElementoMecanico.id e) (ElementoMecanico.codigo e))).
Proof.
  unfold ElementoMecanico.full_clean, ElementoMecanico.validate_unique.
  rewrite excluded_codigo.
  unfold ElementoMecanico.clean_fields.
  destruct (CharField 50 required None (Some (ElementoMecanico.codigo e)))
    as [|c0 l];
    repeat rewrite in_app_iff; repeat rewrite in_on; cbn [In];
    intuition congruence.
Qed.

(** The unique check fails exactly when another row holds the value. *)
Lemma unique_check_unique {R : Type} (column : R -> string)
    (table : gmap nat R) (pk : option nat) (v : string) :
  In Unique (unique_check String.eqb column table pk v)
  <-> exists j r, table !! j = Some r /\ column r = v /\ pk <> Some j.
Proof.
  destruct (unique_check String.eqb column table pk v) as [|c l] eqn:E.
  - rewrite unique_check_nil in E. split; [intros []|].
    intros (j & r & Hl & Hv & Hp). specialize (E j r Hl Hp).
    apply String.eqb_neq in E. contradiction.
  - assert (Hne : unique_check String.eqb column table pk v <> [])
      by (rewrite E; discriminate).
    assert (c = Unique /\ l = []) as [-> ->].
    { unfold unique_check in E. destruct (existsb _ _); now inversion E. }
    split; [intros _|intros _; now left].
    unfold unique_check in E.
    destruct (existsb _ _) eqn:Ex; [|discriminate].
    apply existsb_exists in Ex as ([j r] & Hin & Hf).
    apply list_elem_of_In, elem_of_map_to_list in Hin.
    apply andb_prop in Hf as [He Hp]. cbn in He, Hp.
    apply String.eqb_eq in He.
    apply negb_true_iff, bool_decide_eq_false in Hp.
    eauto.
Qed.

Lemma CharField_required_ok (max_length : nat) (s : string) :
  CharField max_length required None (Some s) = []
  <-> s <> ""%string /\ (len s <= max_length)%nat.
Proof.
  unfold CharField, clean_field, clean, validate, run_validators.
  cbn [required blank null andb negb empty_other empty_text flat_map].
  rewrite app_nil_r. unfold MaxLengthValidator.
  destruct (String.eqb_spec s ""); cbn [negb].
  - split; [discriminate|]. intros [H _]. contradiction.
  - destruct (Nat.ltb_spec max_length (len s)).
    + split; [discriminate|lia].
    + split; [auto with arith|reflexivity].
Qed.

(** C6, as the code has it.  Validation files, under the column
    concerned: a minimum-value error for a negative [cantidad_actual] or
    [stock_minimo] of an item and for a [cantidad] of a movement below 1
    (and, on each, for a value under the lower bound of the connection);
    a unique error for a [codigo] that is not empty, has at most 50
    characters and is held by another row (an empty or longer one has
    the error of its own cleaning, so that a [codigo] held by another row
    always has an error); a blank error for an empty [codigo], [nombre]
    or [motivo].  The snapshots [stock_anterior] and
    [stock_nuevo] of a movement declare no minimum: only the lower bound
    of the connection, when it has one, is under them, and negative
    values pass. *)
Theorem validation_rejects (keys : PrimaryKeys)
    (table : gmap nat ElementoMecanico.t) (e : ElementoMecanico.t)
    (m : MovimientoStock.t) :
  (In ("cantidad_actual"%string, MinValue)
      (ElementoMecanico.full_clean keys table e)
   <-> ElementoMecanico.cantidad_actual e < 0
       \/ below_range (integer_field_range keys)
            (ElementoMecanico.cantidad_actual e))
  /\ (In ("stock_minimo"%string, MinValue)
         (ElementoMecanico.full_clean keys table e)
      <-> ElementoMecanico.stock_minimo e < 0
          \/ below_range (integer_field_range keys)
               (ElementoMecanico.stock_minimo e))
  /\ (In ("cantidad"%string, MinValue) (MovimientoStock.full_clean keys m)
      <-> MovimientoStock.cantidad m < 1
          \/ below_range (integer_field_range keys)
               (MovimientoStock.cantidad m))
  /\ (In ("stock_anterior"%string, MinValue) (MovimientoStock.full_clean keys m)
      <-> below_range (integer_field_range keys)
            (MovimientoStock.stock_anterior m))
  /\ (In ("stock_nuevo"%string, MinValue) (MovimientoStock.full_clean keys m)
      <-> below_range (integer_field_range keys)
            (MovimientoStock.stock_nuevo m))
  /\ (In ("codigo"%string, Unique) (ElementoMecanico.full_clean keys table e)
      <-> ElementoMecanico.codigo e <> ""%string
          /\ (len (ElementoMecanico.codigo e) <= 50)%nat
          /\ exists j r, table !! j = Some r
                         /\ ElementoMecanico.codigo r = ElementoMecanico.codigo e
                         /\ ElementoMecanico.id e <> Some j)
  /\ ((exists c, In ("codigo"%string, c)
                    (ElementoMecanico.full_clean keys table e))
      <-> ElementoMecanico.codigo e = ""%string
          \/ (50 < len (ElementoMecanico.codigo e))%nat
          \/ exists j r, table !! j = Some r
                         /\ ElementoMecanico.codigo r = ElementoMecanico.codigo e
                         /\ ElementoMecanico.id e <> Some j)
  /\ (In ("codigo"%string, Blank) (ElementoMecanico.full_clean keys table e)
      <-> ElementoMecanico.codigo e = ""%string)
  /\ (In ("nombre"%string, Blank) (ElementoMecanico.full_clean keys table e)
      <-> ElementoMecanico.nombre e = ""%string)
  /\ (In ("motivo"%string, Blank) (MovimientoStock.full_clean keys m)
      <-> MovimientoStock.motivo m = ""%string).
Proof.
  assert (Hany : (exists c, In ("codigo"%string, c)
                              (ElementoMecanico.full_clean keys table e))
      <-> ElementoMecanico.codigo e = ""%string
          \/ (50 < len (ElementoMecanico.codigo e))%nat
          \/ exists j r, table !! j = Some r
                         /\ ElementoMecanico.codigo r = ElementoMecanico.codigo e
                         /\ ElementoMecanico.id e <> Some j).
  { pose proof (full_clean_codigo keys table e) as Hfc.
    pose proof (CharField_required_ok 50 (ElementoMecanico.codigo e)) as Hok.
    pose proof (unique_check_unique ElementoMecanico.codigo table
                  (ElementoMecanico.id e) (ElementoMecanico.codigo e)) as Hun.
    destruct (CharField 50 required None (Some (ElementoMecanico.codigo e)))
      as [|c0 l].
    - destruct Hok as [Hok _]. destruct (Hok eq_refl) as [Hne Hlen].
      split.
      + intros [c Hc]. apply Hfc in Hc as [[]|[_ Hc]].
        right. right. apply Hun.
        unfold unique_check in Hc |- *.
        destruct (existsb _ _); [now left|destruct Hc].
      + intros [H|[H|H]]; [contradiction|lia|].
        exists Unique. apply Hfc. right. split; [reflexivity|now apply Hun].
    - split.
      + intros _. destruct (String.eqb_spec (ElementoMecanico.codigo e) "");
          [now left|right; left].
        destruct (Nat.lt_ge_cases 50 (len (ElementoMecanico.codigo e)));
          [assumption|].
        assert (X : c0 :: l = []) by (apply Hok; auto). discriminate.
      + intros _. exists c0. apply Hfc. left. now left. }
  split; [rewrite full_clean_cantidad_actual; apply IntegerField_min_value|].
  split; [rewrite full_clean_stock_minimo; apply IntegerField_min_value|].
  split; [rewrite full_clean_cantidad; apply IntegerField_min_value|].
  split; [rewrite full_clean_stock_anterior;
          apply IntegerField_plain_min_value|].
  split; [rewrite full_clean_stock_nuevo;
          apply IntegerField_plain_min_value|].
  split; [|split; [exact Hany|split; [|split]]].
  - rewrite full_clean_codigo, unique_check_unique, CharField_required_ok.
    pose proof (CharField_never_unique 50 (ElementoMecanico.codigo e)).
    tauto.
  - rewrite full_clean_codigo, <- (CharField_blank 50).
    split; [|now left]. intros [H|[_ H]]; [exact H|].
    exfalso. unfold unique_check in H.
    destruct (existsb _ _); cbn in H; intuition congruence.
  - rewrite full_clean_nombre. apply CharField_blank.
  - rewrite full_clean_motivo. apply TextField_blank.
Qed.

(** C6, as the claim has it, fails on the snapshots of a movement: one
    with [stock_anterior = -5] and [stock_nuevo = -2] passes validation
    without a single error, on a backend of 64-bit integers as on any
    other that has negative ones, and is stored. *)
Lemma negative_snapshot_accepted :
  MovimientoStock.stock_anterior movimiento_negativo = -5
  /\ MovimientoStock.stock_nuevo movimiento_negativo = -2
  /\ MovimientoStock.full_clean (Mecanico.keys taller) movimiento_negativo = []
  /\ exists m' db',
       Mecanico.MovimientoStock_create taller movimiento_negativo
       = Mecanico.Saved m' db'
       /\ MovimientoStock.stock_anterior m' = -5
       /\ MovimientoStock.stock_nuevo m' = -2.
Proof.
  split; [reflexivity|]. split; [reflexivity|].
  split; [vm_compute; reflexivity|].
  eexists _, _. split; [vm_compute; reflexivity|]. split; reflexivity.
Qed.

(** *** The movement ledger *)

(** The insert of a new movement looks at its two foreign keys and at
    nothing else: neither the snapshots nor the quantity of the item are
    read, and the item is left as it was. *)
Lemma MovimientoStock_create_ok (db : Mecanico.DB) (m : MovimientoStock.t) :
  MovimientoStock.id m = None ->
  MovimientoStock.elemento_id m ∈ dom (Mecanico.elementomecanico db) ->
  MovimientoStock.usuario_id m ∈ Mecanico.auth_user db ->
  let pk := fresh (dom (Mecanico.movimientostock db)) in
  let m' := Mecanico.movimiento_set_id m pk in
  Mecanico.MovimientoStock_create db m
  = Mecanico.Saved m'
      (Mecanico.with_movimientostock db
         (<[pk := m']> (Mecanico.movimientostock db))).
Proof.
  intros Hid He Hu pk m'. unfold Mecanico.MovimientoStock_create.
  rewrite Hid. cbn [default from_option]. fold pk.
  rewrite !bool_decide_eq_true_2 by assumption.
  rewrite bool_decide_eq_false_2 by apply is_fresh.
  reflexivity.
Qed.

(** C3.  Creating a movement enforces no consistency of the snapshots:
    an entry of 3 units recorded with [stock_anterior = 7] and
    [stock_nuevo = 100] against an item that holds 10 passes validation,
    is inserted as given, and leaves the item untouched. *)
Theorem create_does_not_enforce_consistency :
  exists (db : Mecanico.DB) (e : ElementoMecanico.t)
         (m m' : MovimientoStock.t) (db' : Mecanico.DB) (pk : nat),
    Mecanico.elementomecanico db !! MovimientoStock.elemento_id m = Some e
    /\ MovimientoStock.stock_anterior m <> ElementoMecanico.cantidad_actual e
    /\ MovimientoStock.stock_nuevo m
       <> MovimientoStock.stock_anterior m + MovimientoStock.cantidad m
    /\ MovimientoStock.stock_nuevo m
       <> MovimientoStock.stock_anterior m - MovimientoStock.cantidad m
    /\ MovimientoStock.full_clean (Mecanico.keys db) m = []
    /\ Mecanico.MovimientoStock_create db m = Mecanico.Saved m' db'
    /\ Mecanico.movimientostock db' !! pk = Some m'
    /\ MovimientoStock.stock_anterior m' = MovimientoStock.stock_anterior m
    /\ MovimientoStock.stock_nuevo m' = MovimientoStock.stock_nuevo m
    /\ Mecanico.elementomecanico db' = Mecanico.elementomecanico db.
Proof.
  exists taller, elemento_almacenado, movimiento_incoherente.
  eexists _, _, (fresh (dom (Mecanico.movimientostock taller))).
  split; [reflexivity|].
  split; [discriminate|]. split; [discriminate|]. split; [discriminate|].
  split; [vm_compute; reflexivity|].
  split.
  - apply MovimientoStock_create_ok; [reflexivity|vm_compute; reflexivity..].
  - split; [apply lookup_insert_eq|]. repeat split.
Qed.

End Ledger.

(** ** Users and their profiles *)

Section Profiles.
Import Accounts Ejemplos.

Lemma in_perfiles_de (u j : nat) (p : PerfilUsuario) (db : DB) :
  In (j, p) (perfiles_de u db)
  <-> accounts_perfilusuario db !! j = Some p /\ user_id p = u.
Proof.
  unfold perfiles_de. rewrite filter_In, <- list_elem_of_In,
    elem_of_map_to_list. cbn. now rewrite Nat.eqb_eq.
Qed.

Lemma NoDup_perfiles_de (u : nat) (db : DB) : List.NoDup (perfiles_de u db).
Proof.
  unfold perfiles_de.
  apply List.NoDup_filter, NoDup_ListNoDup, NoDup_map_to_list.
Qed.

Lemma only_element {A : Type} (a : A) (l : list A) :
  List.NoDup l -> In a l -> (forall x, In x l -> x = a) -> l = [a].
Proof.
  intros Hnd Ha Hall. destruct l as [|x l]; [destruct Ha|].
  assert (x = a) by (apply Hall; now left). subst x.
  destruct l as [|y l]; [reflexivity|].
  assert (y = a) by (apply Hall; right; now left). subst y.
  inversion Hnd as [|? ? Hnot _]; subst. exfalso. apply Hnot. now left.
Qed.

(** The constraint, counted: at most one row per user. *)
Lemma one_profile_per_user_length (db : DB) :
  one_profile_per_user db
  <-> forall u, (length (perfiles_de u db) <= 1)%nat.
Proof.
  split.
  - intros Huniq u. pose proof (NoDup_perfiles_de u db) as Hnd.
    destruct (perfiles_de u db) as [|[j1 p1] [|[j2 p2] l]] eqn:E;
      [cbn; lia..|exfalso].
    assert (H1 : In (j1, p1) (perfiles_de u db)) by (rewrite E; now left).
    assert (H2 : In (j2, p2) (perfiles_de u db))
      by (rewrite E; right; now left).
    apply in_perfiles_de in H1 as [L1 U1], H2 as [L2 U2].
    assert (j1 = j2) by (eapply Huniq; eauto; congruence). subst j2.
    assert (p1 = p2) by congruence. subst p2.
    inversion Hnd as [|? ? Hnot _]; subst. apply Hnot. now left.
  - intros Hlen j1 j2 p1 p2 L1 L2 Hu.
    assert (H1 : In (j1, p1) (perfiles_de (user_id p1) db))
      by now apply in_perfiles_de.
    assert (H2 : In (j2, p2) (perfiles_de (user_id p1) db))
      by now apply in_perfiles_de.
    specialize (Hlen (user_id p1)).
    destruct (perfiles_de (user_id p1) db) as [|x [|y l]];
      [destruct H1| |cbn in Hlen; lia].
    destruct H1 as [E1|[]], H2 as [E2|[]]. congruence.
Qed.

Lemma user_taken_false (table : gmap nat PerfilUsuario) (k u : nat) :
  user_taken table k u = false
  <-> forall j p, table !! j = Some p -> user_id p = u -> j = k.
Proof.
  unfold user_taken. split.
  - intros H j p Hl Hu.
    destruct (Nat.eq_dec j k) as [|Hne]; [assumption|exfalso].
    assert (X : existsb (fun kr : nat * PerfilUsuario =>
                  Nat.eqb (user_id kr.2) u && negb (Nat.eqb kr.1 k))
                  (map_to_list table) = true); [|congruence].
    apply existsb_exists. exists (j, p). split.
    + now apply list_elem_of_In, elem_of_map_to_list.
    + cbn. apply andb_true_intro. split; [now apply Nat.eqb_eq|].
      now apply negb_true_iff, Nat.eqb_neq.
  - intros H. destruct (existsb _ _) eqn:E; [exfalso|reflexivity].
    apply existsb_exists in E as ([j p] & Hin & Hf).
    apply list_elem_of_In, elem_of_map_to_list in Hin.
    apply andb_prop in Hf as [Hu Hk]. cbn in Hu, Hk.
    apply Nat.eqb_eq in Hu. apply negb_true_iff, Nat.eqb_neq in Hk.
    now apply Hk, (H j p).
Qed.

(** What a save of a profile does to the table: nothing when it raises,
    one row written otherwise, under the key of the object or a fresh
    one, and never a second row for the user. *)
Lemma PerfilUsuario_save_inv (self : PerfilUsuario) (db : DB) :
  match PerfilUsuario_save self db with
  | inl _ => True
  | inr (row, db') =>
      let k := default (fresh (dom (accounts_perfilusuario db))) (id self) in
      row = set_id self k
      /\ auth_user db' = auth_user db
      /\ accounts_perfilusuario db' = <[k := row]> (accounts_perfilusuario db)
      /\ user_id self ∈ auth_user db
      /\ (forall j p, accounts_perfilusuario db !! j = Some p ->
                      user_id p = user_id self -> j = k)
  end.
Proof.
  unfold PerfilUsuario_save.
  destruct (bool_decide_reflect (user_id self ∈ auth_user db)) as [Hfk|];
    cbn [negb]; [|exact I].
  destruct (user_taken _ _ _) eqn:Ht; [exact I|].
  rewrite user_taken_false in Ht. cbn. auto.
Qed.

Lemma PerfilUsuario_save_unique (self row : PerfilUsuario) (db db' : DB) :
  PerfilUsuario_save self db = inr (row, db') ->
  one_profile_per_user db -> one_profile_per_user db'.
Proof.
  intros Hs Huniq. pose proof (PerfilUsuario_save_inv self db) as H.
  rewrite Hs in H. cbn zeta in H.
  set (k := default _ _) in H. destruct H as (-> & _ & Ht & _ & Hfree).
  intros j1 j2 p1 p2. rewrite Ht.
  destruct (Nat.eq_dec j1 k) as [->|N1], (Nat.eq_dec j2 k) as [->|N2];
    rewrite ?lookup_insert_eq, ?lookup_insert_ne by congruence;
    [reflexivity| | |apply Huniq].
  - intros [= <-] L2 Hu. cbn in Hu. symmetry. apply (Hfree j2 p2 L2).
    now symmetry.
  - intros L1 [= <-] Hu. cbn in Hu. now apply (Hfree j1 p1 L1).
Qed.

Lemma PerfilUsuario_save_dom (self row : PerfilUsuario) (db db' : DB) (j : nat) :
  PerfilUsuario_save self db = inr (row, db') ->
  id self = Some j -> j ∈ dom (accounts_perfilusuario db) ->
  dom (accounts_perfilusuario db') = dom (accounts_perfilusuario db).
Proof.
  intros Hs Hid Hj. pose proof (PerfilUsuario_save_inv self db) as H.
  rewrite Hs, Hid in H. cbn in H. destruct H as (Hrow & Hau & Ht & Hrest).
  rewrite Ht, dom_insert_L.
  now apply subseteq_union_1_L, singleton_subseteq_l.
Qed.

Lemma PerfilUsuario_save_ok (self : PerfilUsuario) (db : DB) :
  let k := default (fresh (dom (accounts_perfilusuario db))) (id self) in
  user_id self ∈ auth_user db ->
  (forall j p, accounts_perfilusuario db !! j = Some p ->
               user_id p = user_id self -> j = k) ->
  PerfilUsuario_save self db
  = inr (set_id self k,
         {| auth_user := auth_user db;
            accounts_perfilusuario :=
              <[k := set_id self k]> (accounts_perfilusuario db) |}).
Proof.
  intros k Hfk Hfree. unfold PerfilUsuario_save. fold k.
  rewrite bool_decide_eq_true_2 by assumption. cbn [negb].
  apply user_taken_false in Hfree. now rewrite Hfree.
Qed.

(** C1.  Saving a user that has no row yet (no primary key, or one that
    is in no row), in tables where every profile belongs to a stored user,
    succeeds and leaves exactly one profile for the new user; its role is
    ["trabajador"], and it is the one attached to the instance. *)
Theorem new_user_gets_one_worker_profile (db : DB) (instance : User) :
  (forall j p, accounts_perfilusuario db !! j = Some p ->
               user_id p ∈ auth_user db) ->
  default (fresh (auth_user db)) (pk instance) ∉ auth_user db ->
  exists instance' db' k j p,
    User_save instance db = Done instance' db'
    /\ k = default (fresh (auth_user db)) (pk instance)
    /\ pk instance' = Some k
    /\ k ∈ auth_user db'
    /\ perfiles_de k db' = [(j, p)]
    /\ rol p = "trabajador"%string
    /\ perfilusuario instance' = Some p.
Proof.
  intros Hfk Hnew. set (k := default _ _) in *.
  set (table := accounts_perfilusuario db).
  set (j := fresh (dom table)).
  set (row := set_id (PerfilUsuario_init k) j).
  set (db' := {| auth_user := {[k]} ∪ auth_user db;
                 accounts_perfilusuario := <[j := row]> table |}).
  assert (Hnone : forall j' p', table !! j' = Some p' -> user_id p' <> k).
  { intros j' p' Hl Hu. apply Hnew. rewrite <- Hu. eapply Hfk, Hl. }
  exists {| pk := Some k; perfilusuario := Some row |}, db', k, j, row.
  split; [|split; [reflexivity|split; [reflexivity|split; [|split]]]].
  - unfold User_save. fold k. rewrite bool_decide_eq_false_2 by assumption.
    cbn [negb]. unfold post_save, crear_perfil_usuario. cbn [pk].
    rewrite PerfilUsuario_save_ok; cbn [accounts_perfilusuario auth_user
      PerfilUsuario_init id default from_option user_id Datatypes.id].
    + cbn [bind]. unfold guardar_perfil_usuario, get_perfilusuario.
      cbn [set_perfilusuario perfilusuario pk].
      rewrite PerfilUsuario_save_ok; cbn [accounts_perfilusuario auth_user
        set_id id default from_option user_id Datatypes.id PerfilUsuario_init].
      * fold table j. unfold db'. rewrite insert_insert_eq. reflexivity.
      * set_solver.
      * fold table j. intros j' p' Hl Hu.
        destruct (Nat.eq_dec j' j) as [|Hne]; [assumption|].
        rewrite lookup_insert_ne in Hl by congruence.
        now apply Hnone in Hl.
    + set_solver.
    + fold table. intros j' p' Hl Hu. now apply Hnone in Hl.
  - unfold db'. cbn. set_solver.
  - apply only_element.
    + apply NoDup_perfiles_de.
    + apply in_perfiles_de. unfold db'. cbn [accounts_perfilusuario].
      now rewrite lookup_insert_eq.
    + intros [j' p'] Hin. apply in_perfiles_de in Hin as [Hl Hu].
      unfold db' in Hl. cbn [accounts_perfilusuario] in Hl.
      destruct (Nat.eq_dec j' j) as [->|Hne].
      * rewrite lookup_insert_eq in Hl. congruence.
      * rewrite lookup_insert_ne in Hl by congruence. now apply Hnone in Hl.
  - split; reflexivity.
Qed.

Lemma new_user_gets_one_worker_profile_witness :
  (forall j p, accounts_perfilusuario sitio !! j = Some p ->
               user_id p ∈ auth_user sitio)
  /\ (default (fresh (auth_user sitio)) (pk usuario_nuevo) ∉ auth_user sitio)
  /\ exists instance' db' k j p,
       User_save usuario_nuevo sitio = Done instance' db'
       /\ k = default (fresh (auth_user sitio)) (pk usuario_nuevo)
       /\ pk instance' = Some k
       /\ k ∈ auth_user db'
       /\ perfiles_de k db' = [(j, p)]
       /\ rol p = "trabajador"%string
       /\ perfilusuario instance' = Some p.
Proof.
  assert (H1 : forall j p, accounts_perfilusuario sitio !! j = Some p ->
                           user_id p ∈ auth_user sitio).
  { intros j p Hl. unfold sitio in Hl. cbn [accounts_perfilusuario] in Hl.
    apply lookup_singleton_Some in Hl as [_ <-].
    vm_compute. reflexivity. }
  assert (H2 : default (fresh (auth_user sitio)) (pk usuario_nuevo)
               ∉ auth_user sitio) by (vm_compute; discriminate).
  split; [exact H1|]. split; [exact H2|].
  exact (new_user_gets_one_worker_profile sitio usuario_nuevo H1 H2).
Defined.

(** The receiver that saves the profile writes at most the row of the
    profile it finds attached: the constraint survives it, and when the
    attached profile is a stored one (or none is attached) the set of
    stored profiles is the same afterwards. *)
Lemma guardar_perfil_usuario_inv (instance : User) (db : DB) :
  let db' := db_of (guardar_perfil_usuario instance db) in
  (one_profile_per_user db -> one_profile_per_user db')
  /\ ((forall p, perfilusuario instance = Some p ->
         exists j, id p = Some j /\ j ∈ dom (accounts_perfilusuario db)) ->
      dom (accounts_perfilusuario db') = dom (accounts_perfilusuario db)).
Proof.
  unfold guardar_perfil_usuario, get_perfilusuario.
  destruct (perfilusuario instance) as [p|] eqn:Hcache.
  - destruct (PerfilUsuario_save p db) as [e|[p' db2]] eqn:Hs; cbn [db_of].
    + auto.
    + split; [now apply (PerfilUsuario_save_unique p p')|].
      intros Hstored. destruct (Hstored p eq_refl) as (j & Hid & Hj).
      now apply (PerfilUsuario_save_dom p p' db db2 j).
  - destruct (pk instance) as [k|]; [|cbn; auto].
    destruct (List.filter _ _) as [|[j row] [|x l]] eqn:Hf; [cbn; auto| |cbn; auto].
    assert (Hin : In (j, row) (perfiles_de k db))
      by (unfold perfiles_de; rewrite Hf; now left).
    apply in_perfiles_de in Hin as [Hl _].
    destruct (PerfilUsuario_save (set_id row j) db) as [e|[p' db2]] eqn:Hs;
      cbn [db_of]; [auto|].
    split; [now apply (PerfilUsuario_save_unique (set_id row j) p')|].
    intros _. apply (PerfilUsuario_save_dom (set_id row j) p' db db2 j Hs);
      [reflexivity|]. apply elem_of_dom. eauto.
Qed.

(** C10, as the code has it.  Saving a user whose row exists sends
    [post_save] with [created] false: the receiver that creates profiles
    does nothing, and the one that saves the profile saves the profile it
    finds.  When the profile attached to the instance is a stored one (or
    none is attached), the stored profiles are the same afterwards; and
    whatever is attached, no user ends up with more than one profile. *)
Theorem existing_user_save_adds_no_profile (db : DB) (instance : User)
    (k : nat) :
  pk instance = Some k ->
  k ∈ auth_user db ->
  let db' := db_of (User_save instance db) in
  ((forall p, perfilusuario instance = Some p ->
      exists j, id p = Some j /\ j ∈ dom (accounts_perfilusuario db)) ->
   dom (accounts_perfilusuario db') = dom (accounts_perfilusuario db))
  /\ ((forall u, (length (perfiles_de u db) <= 1)%nat) ->
      forall u, (length (perfiles_de u db') <= 1)%nat).
Proof.
  intros Hpk Hk. unfold User_save. rewrite Hpk.
  cbn [default from_option Datatypes.id].
  rewrite bool_decide_eq_true_2 by assumption. cbn [negb].
  unfold post_save, crear_perfil_usuario. cbn [bind].
  set (instance1 := {| pk := Some k; perfilusuario := perfilusuario instance |}).
  set (db1 := {| auth_user := {[k]} ∪ auth_user db;
                 accounts_perfilusuario := accounts_perfilusuario db |}).
  destruct (guardar_perfil_usuario_inv instance1 db1) as [Huniq Hdom].
  cbn zeta. split.
  - intros Hstored. apply Hdom. exact Hstored.
  - intros Hlen. apply one_profile_per_user_length. apply Huniq.
    change (one_profile_per_user db). now apply one_profile_per_user_length.
Qed.

Lemma existing_user_save_adds_no_profile_witness :
  pk usuario_con_perfil_cargado = Some 1%nat
  /\ 1%nat ∈ auth_user sitio
  /\ (forall p, perfilusuario usuario_con_perfil_cargado = Some p ->
        exists j, id p = Some j /\ j ∈ dom (accounts_perfilusuario sitio))
  /\ dom (accounts_perfilusuario
            (db_of (User_save usuario_con_perfil_cargado sitio)))
     = dom (accounts_perfilusuario sitio)
  /\ (forall u, (length (perfiles_de u sitio) <= 1)%nat)
  /\ forall u, (length (perfiles_de u
                          (db_of (User_save usuario_con_perfil_cargado
                                    sitio))) <= 1)%nat.
Proof.
  assert (Hk : 1%nat ∈ auth_user sitio) by (vm_compute; reflexivity).
  assert (Hstored : forall p,
            perfilusuario usuario_con_perfil_cargado = Some p ->
            exists j, id p = Some j
                      /\ j ∈ dom (accounts_perfilusuario sitio)).
  { intros p [= <-]. exists 1%nat. split; [reflexivity|].
    apply elem_of_dom. exists perfil_admin. reflexivity. }
  assert (Hlen : forall u, (length (perfiles_de u sitio) <= 1)%nat).
  { apply one_profile_per_user_length. intros j1 j2 p1 p2 L1 L2 _.
    unfold sitio in L1, L2. cbn [accounts_perfilusuario] in L1, L2.
    apply lookup_singleton_Some in L1 as [<- _], L2 as [<- _]. reflexivity. }
  destruct (existing_user_save_adds_no_profile sitio
              usuario_con_perfil_cargado 1%nat eq_refl Hk) as [Hdom Hkeep].
  split; [reflexivity|]. split; [exact Hk|]. split; [exact Hstored|].
  split; [|split].
  - exact (Hdom Hstored).
  - exact Hlen.
  - exact (Hkeep Hlen).
Defined.

(** C10 as stated fails: a profile that was attached to an existing user
    and never saved is inserted when the user is saved.  User 1 is
    stored and has no profile; after the save it has one. *)
Lemma existing_user_save_creates_profile :
  pk usuario_con_perfil_nuevo = Some 1%nat
  /\ 1%nat ∈ auth_user sitio_sin_perfil
  /\ perfiles_de 1 sitio_sin_perfil = []
  /\ length (perfiles_de 1
               (db_of (User_save usuario_con_perfil_nuevo sitio_sin_perfil)))
     = 1%nat
  /\ dom (accounts_perfilusuario
            (db_of (User_save usuario_con_perfil_nuevo sitio_sin_perfil)))
     <> dom (accounts_perfilusuario sitio_sin_perfil).
Proof.
  split; [reflexivity|]. split; [vm_compute; reflexivity|].
  split; [vm_compute; reflexivity|]. split; [vm_compute; reflexivity|].
  intros Hdom.
  assert (Hin : fresh (dom (accounts_perfilusuario sitio_sin_perfil))
                ∈ dom (accounts_perfilusuario
                         (db_of (User_save usuario_con_perfil_nuevo
                                   sitio_sin_perfil)))).
  { apply elem_of_dom. eexists. vm_compute. reflexivity. }
  rewrite Hdom in Hin. revert Hin. apply is_fresh.
Qed.

End Profiles.

(** ** More on users and profiles *)

Section ProfileLifecycle.
Import Accounts Ejemplos.

(** X1.  The three role tests exclude one another, and one of them holds
    exactly when the role is a key of [ROL_CHOICES]. *)
Theorem role_tests_exclusive (p : PerfilUsuario) :
  es_administrador p && es_trabajador p = false
  /\ es_administrador p && es_tecnico p = false
  /\ es_trabajador p && es_tecnico p = false
  /\ (es_administrador p || es_trabajador p || es_tecnico p = true
      <-> In (rol p) (map fst ROL_CHOICES)).
Proof.
  unfold es_administrador, es_trabajador, es_tecnico. cbn [map fst ROL_CHOICES In].
  destruct (String.eqb_spec (rol p) "administrador") as [->|Ha];
    destruct (String.eqb_spec (rol p) "trabajador") as [Ht|Ht];
    destruct (String.eqb_spec (rol p) "tecnico") as [Hc|Hc];
    try discriminate; try (rewrite Ht in Hc; discriminate);
    cbn; repeat split; intros; auto; try discriminate; intuition congruence.
Qed.

Lemma user_row_exists (k : nat) (users : gset nat) :
  k ∈ users -> {[k]} ∪ users = users.
Proof. intros H. now apply subseteq_union_1_L, singleton_subseteq_l. Qed.

Lemma db_eta (db : DB) :
  {| auth_user := auth_user db;
     accounts_perfilusuario := accounts_perfilusuario db |} = db.
Proof. now destruct db. Qed.

(** X2.  The receivers never back-fill.  A user that exists and has no
    profile, saved with nothing attached, is left without one: the save
    changes neither table. *)
Theorem existing_user_without_profile (db : DB) (instance : User) (k : nat) :
  pk instance = Some k ->
  k ∈ auth_user db ->
  perfilusuario instance = None ->
  perfiles_de k db = [] ->
  User_save instance db = Done instance db.
Proof.
  intros Hpk Hk Hcache Hnone. unfold User_save. rewrite Hpk.
  cbn [default from_option Datatypes.id].
  rewrite bool_decide_eq_true_2 by assumption. cbn [negb].
  unfold post_save, crear_perfil_usuario. cbn [bind].
  unfold guardar_perfil_usuario, get_perfilusuario. cbn [perfilusuario pk].
  rewrite Hcache. cbn [accounts_perfilusuario].
  unfold perfiles_de in Hnone. rewrite Hnone.
  rewrite user_row_exists, db_eta by assumption.
  destruct instance as [pk0 cache]. cbn in Hpk, Hcache. now subst.
Qed.

Lemma existing_user_without_profile_witness :
  User_save usuario_existente sitio_sin_perfil
  = Done usuario_existente sitio_sin_perfil.
Proof.
  apply (existing_user_without_profile sitio_sin_perfil usuario_existente 1%nat);
    [reflexivity|vm_compute; reflexivity|reflexivity|vm_compute; reflexivity].
Defined.


(** The rows of a user in a table that keeps the constraint are the one
    row that belongs to it. *)
Lemma perfiles_de_unique (db : DB) (k j : nat) (row : PerfilUsuario) :
  one_profile_per_user db ->
  accounts_perfilusuario db !! j = Some row -> user_id row = k ->
  perfiles_de k db = [(j, row)].
Proof.
  intros Huniq Hl Hu. apply only_element.
  - apply NoDup_perfiles_de.
  - now apply in_perfiles_de.
  - intros [j' p'] Hin. apply in_perfiles_de in Hin as [Hl' Hu'].
    assert (j' = j) by (eapply Huniq; eauto; congruence). subst j'.
    congruence.
Qed.

(** X3.  Saving an existing user with nothing attached reads its profile from
    the table, writes it back as read and attaches it: role, telephone
    and active flag of the stored profile are what they were, and no other
    row is touched. *)
Theorem existing_user_save_keeps_profile (db : DB) (instance : User)
    (k j : nat) (row : PerfilUsuario) :
  pk instance = Some k ->
  k ∈ auth_user db ->
  perfilusuario instance = None ->
  one_profile_per_user db ->
  accounts_perfilusuario db !! j = Some row ->
  user_id row = k ->
  User_save instance db
  = Done (set_perfilusuario instance (set_id row j))
      {| auth_user := auth_user db;
         accounts_perfilusuario :=
           <[j := set_id row j]> (accounts_perfilusuario db) |}.
Proof.
  intros Hpk Hk Hcache Huniq Hl Hu. unfold User_save. rewrite Hpk.
  cbn [default from_option Datatypes.id].
  rewrite bool_decide_eq_true_2 by assumption. cbn [negb].
  unfold post_save, crear_perfil_usuario. cbn [bind].
  unfold guardar_perfil_usuario, get_perfilusuario. cbn [perfilusuario pk].
  rewrite Hcache. cbn [accounts_perfilusuario].
  pose proof (perfiles_de_unique db k j row Huniq Hl Hu) as Hrows.
  unfold perfiles_de in Hrows. rewrite Hrows.
  rewrite user_row_exists by assumption.
  rewrite PerfilUsuario_save_ok;
    cbn [set_id id user_id default from_option Datatypes.id auth_user
         accounts_perfilusuario].
  - destruct instance as [pk0 cache]. cbn in Hpk, Hcache. subst.
    reflexivity.
  - now rewrite Hu.
  - intros j' p' Hl' Hu'. eapply Huniq; eauto.
Qed.

Lemma existing_user_save_keeps_profile_witness :
  exists db',
    User_save usuario_existente sitio
    = Done (set_perfilusuario usuario_existente perfil_admin) db'
    /\ accounts_perfilusuario db' !! 1%nat = Some perfil_admin.
Proof.
  eexists. split.
  - apply (existing_user_save_keeps_profile sitio usuario_existente 1%nat
             1%nat perfil_admin);
      [reflexivity|vm_compute; reflexivity|reflexivity| |reflexivity
      |reflexivity].
    intros j1 j2 p1 p2 L1 L2 _.
    unfold sitio in L1, L2. cbn [accounts_perfilusuario] in L1, L2.
    apply lookup_singleton_Some in L1 as [<- _], L2 as [<- _]. reflexivity.
  - cbn [accounts_perfilusuario]. apply lookup_insert_eq.
Defined.

(** X5.  An attached profile that was never saved is inserted by the save of
    its user, also when the user already existed: a user without profile
    gets this one, under a key no row had. *)
Theorem attached_new_profile_inserted (db : DB) (instance : User) (k : nat)
    (p : PerfilUsuario) :
  pk instance = Some k ->
  k ∈ auth_user db ->
  perfilusuario instance = Some p ->
  id p = None ->
  user_id p = k ->
  perfiles_de k db = [] ->
  let j := fresh (dom (accounts_perfilusuario db)) in
  exists db',
    User_save instance db = Done (set_perfilusuario instance (set_id p j)) db'
    /\ (j ∉ dom (accounts_perfilusuario db))
    /\ accounts_perfilusuario db'
       = <[j := set_id p j]> (accounts_perfilusuario db)
    /\ perfiles_de k db' = [(j, set_id p j)].
Proof.
  intros Hpk Hk Hcache Hid Hu Hnone j.
  assert (Hfree : forall j' p', accounts_perfilusuario db !! j' = Some p' ->
                                user_id p' <> k).
  { intros j' p' Hl Hu'.
    assert (Hin : In (j', p') (perfiles_de k db)) by now apply in_perfiles_de.
    rewrite Hnone in Hin. destruct Hin. }
  set (db' := {| auth_user := auth_user db;
                 accounts_perfilusuario :=
                   <[j := set_id p j]> (accounts_perfilusuario db) |}).
  exists db'. split; [|split; [apply is_fresh|split; [reflexivity|]]].
  - unfold User_save. rewrite Hpk. cbn [default from_option Datatypes.id].
    rewrite bool_decide_eq_true_2 by assumption. cbn [negb].
    unfold post_save, crear_perfil_usuario. cbn [bind].
    unfold guardar_perfil_usuario, get_perfilusuario. cbn [perfilusuario pk].
    rewrite Hcache. rewrite user_row_exists by assumption.
    rewrite PerfilUsuario_save_ok;
      cbn [auth_user accounts_perfilusuario]; rewrite ?Hid;
      cbn [default from_option].
    + destruct instance as [pk0 cache]. cbn in Hpk, Hcache. subst.
      reflexivity.
    + now rewrite Hu.
    + intros j' p' Hl Hu'. rewrite Hu in Hu'. now apply Hfree in Hl.
  - apply only_element.
    + apply NoDup_perfiles_de.
    + apply in_perfiles_de. unfold db'. cbn [accounts_perfilusuario].
      rewrite lookup_insert_eq. now destruct p.
    + intros [j' p'] Hin. apply in_perfiles_de in Hin as [Hl Hu'].
      unfold db' in Hl. cbn [accounts_perfilusuario] in Hl.
      destruct (Nat.eq_dec j' j) as [->|Hne].
      * rewrite lookup_insert_eq in Hl. congruence.
      * rewrite lookup_insert_ne in Hl by congruence. now apply Hfree in Hl.
Qed.

Lemma attached_new_profile_inserted_witness :
  exists db' j,
    User_save usuario_con_perfil_nuevo sitio_sin_perfil
    = Done (set_perfilusuario usuario_con_perfil_nuevo
              (set_id (PerfilUsuario_init 1) j)) db'
    /\ perfiles_de 1 sitio_sin_perfil = []
    /\ perfiles_de 1 db' = [(j, set_id (PerfilUsuario_init 1) j)].
Proof.
  destruct (attached_new_profile_inserted sitio_sin_perfil
              usuario_con_perfil_nuevo 1%nat (PerfilUsuario_init 1))
    as (db' & Hsave & _ & _ & Hrows);
    [reflexivity|vm_compute; reflexivity|reflexivity|reflexivity|reflexivity
    |vm_compute; reflexivity|].
  exists db', (fresh (dom (accounts_perfilusuario sitio_sin_perfil))).
  split; [exact Hsave|]. split; [vm_compute; reflexivity|exact Hrows].
Defined.

(** X6.  The one-to-one column admits no second profile: creating a profile
    for a user that has one raises [IntegrityError] and changes nothing,
    which is what the creating receiver does when it runs for such a
    user. *)
Theorem second_profile_refused (db : DB) (instance : User) (k j : nat)
    (row : PerfilUsuario) :
  pk instance = Some k ->
  accounts_perfilusuario db !! j = Some row ->
  user_id row = k ->
  PerfilUsuario_save (PerfilUsuario_init k) db = inl IntegrityError
  /\ crear_perfil_usuario true instance db
     = Raised IntegrityError
         (set_perfilusuario instance (PerfilUsuario_init k)) db.
Proof.
  intros Hpk Hl Hu.
  assert (E : PerfilUsuario_save (PerfilUsuario_init k) db
              = inl IntegrityError).
  { unfold PerfilUsuario_save. cbn [PerfilUsuario_init id user_id default
      from_option].
    destruct (bool_decide (k ∈ auth_user db)); cbn [negb]; [|reflexivity].
    destruct (user_taken _ _ _) eqn:Ht; [reflexivity|exfalso].
    rewrite user_taken_false in Ht. specialize (Ht j row Hl Hu).
    pose proof (is_fresh (dom (accounts_perfilusuario db))) as Hfresh.
    apply Hfresh. rewrite <- Ht. apply elem_of_dom. eauto. }
  split; [exact E|].
  unfold crear_perfil_usuario. now rewrite Hpk, E.
Qed.

Lemma second_profile_refused_witness :
  PerfilUsuario_save (PerfilUsuario_init 1) sitio = inl IntegrityError
  /\ crear_perfil_usuario true usuario_existente sitio
     = Raised IntegrityError
         (set_perfilusuario usuario_existente (PerfilUsuario_init 1)) sitio.
Proof.
  apply (second_profile_refused sitio usuario_existente 1%nat 1%nat
           perfil_admin); reflexivity.
Defined.

End ProfileLifecycle.

(** ** What a valid row is *)

Section Validity.
Import Django.

(** [len] counts characters, not bytes: each of the eleven letters below
    takes two bytes, and the text fits a column of twenty characters. *)
Example len_counts_characters :
  len "ñññññññññññ" = 11%nat
  /\ String.length "ñññññññññññ" = 22%nat
  /\ CharField 20 optional None (Some "ñññññññññññ"%string) = [].
Proof. repeat split. Qed.

Lemma CharField_optional_ok (max_length : nat) (v : option string) :
  CharField max_length optional None v = []
  <-> match v with
      | Some s => (len s <= max_length)%nat
      | None => True
      end.
Proof.
  unfold CharField, clean_field. destruct v as [s|]; [|cbn; tauto].
  cbn [optional blank andb empty_text].
  destruct (String.eqb_spec s "") as [->|Hs]; [cbn; split; auto with arith|].
  unfold clean, validate, run_validators.
  cbn [optional blank null andb negb empty_other empty_text flat_map].
  apply String.eqb_neq in Hs. rewrite Hs, app_nil_r.
  unfold MaxLengthValidator.
  destruct (Nat.ltb_spec max_length (len s)).
  - split; [discriminate|lia].
  - split; [auto|reflexivity].
Qed.

(** A required text column with choices whose keys are neither empty nor
    too long accepts exactly the keys. *)
Lemma CharField_choices_ok (max_length : nat) (keys : list string)
    (s : string) :
  Forall (fun key => key <> ""%string
                     /\ (len key <= max_length)%nat) keys ->
  CharField max_length required (Some keys) (Some s) = [] <-> In s keys.
Proof.
  intros Hkeys. rewrite List.Forall_forall in Hkeys.
  unfold CharField, clean_field, clean, validate, run_validators.
  cbn [required blank null andb negb empty_other empty_text flat_map].
  rewrite app_nil_r.
  destruct (existsb (String.eqb s) keys) eqn:E.
  - apply existsb_exists in E as (x & Hx & Heq).
    apply String.eqb_eq in Heq. subst x.
    destruct (Hkeys s Hx) as [Hne Hlen]. apply String.eqb_neq in Hne.
    rewrite Hne. cbn [negb andb]. unfold MaxLengthValidator.
    destruct (Nat.ltb_spec max_length (len s)); [lia|]. tauto.
  - assert (Hnot : ~ In s keys).
    { intros Hin. assert (X : existsb (String.eqb s) keys = true)
        by (apply existsb_exists; exists s; split;
            [assumption|apply String.eqb_refl]). congruence. }
    destruct (String.eqb s ""); cbn; split;
      intros; try discriminate; contradiction.
Qed.

Lemma TextField_required_ok (s : string) :
  TextField required (Some s) = [] <-> s <> ""%string.
Proof.
  unfold TextField, clean_field, clean, validate, run_validators.
  cbn [required blank null andb negb empty_other empty_text flat_map].
  destruct (String.eqb_spec s ""); cbn; split; intros;
    try discriminate; try contradiction; auto.
Qed.

Lemma TextField_optional_ok (v : option string) : TextField optional v = [].
Proof.
  unfold TextField, clean_field, clean, validate, run_validators.
  destruct v as [s|]; [|reflexivity].
  cbn [optional blank null andb negb empty_other empty_text flat_map].
  now destruct (String.eqb s "").
Qed.

Lemma ForeignKey_required_iff (target : gset nat) (k : nat) :
  ForeignKey target required (Some k) = [] <-> k ∈ target.
Proof.
  unfold ForeignKey, clean_field, clean, validate, run_validators. cbn.
  destruct (bool_decide_reflect (k ∈ target)); split; intros;
    try discriminate; try contradiction; auto.
Qed.

(** *** Amounts *)

(** [DecimalValidator(10, 2)] accepts exactly the decimals written with
    at most two places whose amount in hundredths has at most ten
    digits. *)
Lemma DecimalValidator_iff (d : Decimal.t) :
  DecimalValidator 10 2 d = []
  <-> -2 <= Decimal.exp d
      /\ (Decimal.coeff d * 10 ^ Z.to_N (Decimal.exp d + 2) < 10 ^ 10)%N.
Proof.
  destruct d as [sg c e]. unfold DecimalValidator. cbn [Decimal.coeff Decimal.exp].
  pose proof (digits_pos c) as Hpos. pose proof (digits_bound c) as Hup.
  destruct (N.eq_dec c 0%N) as [->|Hnz].
  - (* zero, whatever the exponent *)
    rewrite digits_zero in *. rewrite N.mul_0_l.
    destruct (Z.leb_spec 0 e) as [He|He].
    + cbn. split; [intros _; split; [lia|reflexivity]|reflexivity].
    + destruct (N.ltb_spec 1 (Z.to_N (- e))) as [Hm|Hm].
      * cbn zeta beta iota.
        destruct (N.ltb_spec 10 (Z.to_N (- e))).
        { split; [discriminate|lia]. }
        destruct (N.ltb_spec 2 (Z.to_N (- e))).
        { split; [discriminate|lia]. }
        destruct (Z.ltb_spec (Z.of_N 10 - Z.of_N 2)
                    (Z.of_N (Z.to_N (- e)) - Z.of_N (Z.to_N (- e)))); [lia|].
        split; [intros _; split; [lia|reflexivity]|reflexivity].
      * assert (e = -1) by lia. subst e. cbn.
        split; [intros _; split; [lia|reflexivity]|reflexivity].
  - set (len := Decimal.digits c) in *.
    assert (Hlen : forall k : N, (len <= k <-> c < 10 ^ k)%N)
      by (intros k; now apply digits_le_iff).
    clearbody len. apply N.eqb_neq in Hnz as Hnzb. rewrite Hnzb.
    destruct (Z.leb_spec 0 e) as [He|He].
    + (* an integer: its length and its trailing zeros count *)
      cbn zeta beta iota.
      set (t := Z.to_N e).
      replace (Z.to_N (e + 2)) with (t + 2)%N by (subst t; lia).
      assert (Ht : (t <= 8 \/ 8 < t)%N) by lia.
      destruct Ht as [Ht|Ht].
      * assert (Hsplit : (10 ^ 10 = 10 ^ (8 - t) * 10 ^ (t + 2))%N).
        { rewrite <- N.pow_add_r. f_equal. lia. }
        rewrite Hsplit.
        assert (Hp : (0 < 10 ^ (t + 2))%N) by (apply N.neq_0_lt_0, N.pow_nonzero; lia).
        rewrite <- (N.mul_lt_mono_pos_r _ _ _ Hp), <- Hlen.
        destruct (N.ltb_spec 10 (len + t)); [split; [discriminate|lia]|].
        cbn [N.ltb N.compare].
        destruct (Z.ltb_spec (Z.of_N 10 - Z.of_N 2)
                    (Z.of_N (len + t) - Z.of_N 0));
          (split; [try discriminate; lia|intros; try reflexivity; lia]).
      * assert (Hbig : (10 ^ 11 <= 10 ^ (t + 2))%N)
          by (apply N.pow_le_mono_r; lia).
        assert (Hfalse : ~ (c * 10 ^ (t + 2) < 10 ^ 10)%N).
        { change (10 ^ 10)%N with 10000000000%N.
          change (10 ^ 11)%N with 100000000000%N in Hbig.
          set (X := (10 ^ (t + 2))%N) in *. clearbody X. nia. }
        destruct (N.ltb_spec 10 (len + t)); [split; [discriminate|tauto]|].
        cbn [N.ltb N.compare].
        destruct (Z.ltb_spec (Z.of_N 10 - Z.of_N 2)
                    (Z.of_N (len + t) - Z.of_N 0));
          [split; [discriminate|tauto]|lia].
    + (* a fraction *)
      set (m := Z.to_N (- e)).
      assert (Hm : (2 < m \/ m = 2 \/ m = 1)%N) by (subst m; lia).
      destruct Hm as [Hm|[Hm|Hm]].
      * (* more than two places *)
        destruct (N.ltb_spec len m); cbn zeta beta iota.
        { destruct (N.ltb_spec 10 m); [split; [discriminate|lia]|].
          destruct (N.ltb_spec 2 m); [split; [discriminate|lia]|lia]. }
        { destruct (N.ltb_spec 10 len); [split; [discriminate|lia]|].
          destruct (N.ltb_spec 2 m); [split; [discriminate|lia]|lia]. }
      * assert (e = -2) by lia. subst e. clear He. rewrite Hm.
        change (Z.to_N (-2 + 2)) with 0%N. rewrite N.pow_0_r, N.mul_1_r.
        rewrite <- Hlen.
        destruct (N.ltb_spec len 2); cbn zeta beta iota.
        { cbn. split; [intros _; split; lia|reflexivity]. }
        { destruct (N.ltb_spec 10 len); [split; [discriminate|lia]|].
          cbn [N.ltb N.compare Pos.compare Pos.compare_cont].
          destruct (Z.ltb_spec (Z.of_N 10 - Z.of_N 2) (Z.of_N len - Z.of_N 2));
            [lia|]. split; [intros _; split; lia|reflexivity]. }
      * assert (e = -1) by lia. subst e. clear He. rewrite Hm.
        change (Z.to_N (-1 + 2)) with 1%N. rewrite N.pow_1_r.
        assert (H9 : (c * 10 < 10 ^ 10 <-> c < 10 ^ 9)%N).
        { change (10 ^ 10)%N with 10000000000%N.
          change (10 ^ 9)%N with 1000000000%N. lia. }
        rewrite H9, <- Hlen.
        destruct (N.ltb_spec len 1); [lia|]. cbn zeta beta iota.
        destruct (N.ltb_spec 10 len); [split; [discriminate|lia]|].
        cbn [N.ltb N.compare Pos.compare Pos.compare_cont].
        destruct (Z.ltb_spec (Z.of_N 10 - Z.of_N 2) (Z.of_N len - Z.of_N 1));
          (split; [try discriminate; intros; split; lia
                  |intros; try reflexivity; lia]).
Qed.

Lemma DecimalField_iff (o : Options) (d : Decimal.t) :
  DecimalField 10 2 o (Some d) = []
  <-> -2 <= Decimal.exp d
      /\ (Decimal.coeff d * 10 ^ Z.to_N (Decimal.exp d + 2) < 10 ^ 10)%N.
Proof.
  rewrite <- DecimalValidator_iff.
  unfold DecimalField, clean_field, clean, validate, run_validators.
  cbn [empty_other andb negb flat_map].
  now rewrite !andb_false_r, app_nil_r.
Qed.

(** X8.  The price columns ([max_digits=10], [decimal_places=2]) accept
    exactly the decimals written with at most two places whose amount in
    hundredths has at most ten digits.  The sign is not looked at: a
    negative price is accepted as its positive counterpart is. *)
Theorem price_accepted_iff (o : Options) (d : Decimal.t) :
  (DecimalField 10 2 o (Some d) = []
   <-> -2 <= Decimal.exp d
       /\ (Decimal.coeff d * 10 ^ Z.to_N (Decimal.exp d + 2) < 10 ^ 10)%N)
  /\ DecimalField 10 2 o
       (Some (Decimal.mk (negb (Decimal.sign d)) (Decimal.coeff d)
                (Decimal.exp d)))
     = DecimalField 10 2 o (Some d).
Proof.
  split; [apply DecimalField_iff|reflexivity].
Qed.

(** X9.  A stock movement is valid exactly when its item and user exist,
    its type is one of the four, its quantity is at least 1, its reason is
    not empty, and each integer is within the range of the connection.
    Nothing ties the snapshots to the quantity, to the type or to each
    other. *)
Theorem movimiento_valid_iff (keys : PrimaryKeys) (m : MovimientoStock.t) :
  MovimientoStock.full_clean keys m = []
  <-> MovimientoStock.elemento_id m ∈ pk_ElementoMecanico keys
      /\ In (MovimientoStock.tipo_movimiento m)
           ["entrada"; "salida"; "ajuste"; "devolucion"]%string
      /\ (1 <= MovimientoStock.cantidad m
          /\ in_range (integer_field_range keys) (MovimientoStock.cantidad m))
      /\ MovimientoStock.motivo m <> ""%string
      /\ in_range (integer_field_range keys)
           (MovimientoStock.stock_anterior m)
      /\ in_range (integer_field_range keys) (MovimientoStock.stock_nuevo m)
      /\ MovimientoStock.usuario_id m ∈ pk_User keys.
Proof.
  unfold MovimientoStock.full_clean, MovimientoStock.clean_fields, ErrorDict.
  rewrite !app_nil, !on_nil, !ForeignKey_required_iff, TextField_required_ok,
    !IntegerField_plain, IntegerField_min.
  rewrite CharField_choices_ok
    by (repeat constructor; (discriminate || (cbn; lia))).
  reflexivity.
Qed.

(** X10.  A used-item line is valid exactly when its order, item and user
    exist, its quantity is at least 1 and within the range of the
    connection, and its unit price is an accepted amount. *)
Theorem elemento_usado_valid_iff (keys : PrimaryKeys)
    (l : ElementoUsadoOrden.t) :
  ElementoUsadoOrden.full_clean keys l = []
  <-> ElementoUsadoOrden.orden_id l ∈ pk_OrdenTrabajo keys
      /\ ElementoUsadoOrden.elemento_id l ∈ pk_ElementoMecanico keys
      /\ (1 <= ElementoUsadoOrden.cantidad_usada l
          /\ in_range (integer_field_range keys)
               (ElementoUsadoOrden.cantidad_usada l))
      /\ (-2 <= Decimal.exp (ElementoUsadoOrden.precio_unitario l)
          /\ (Decimal.coeff (ElementoUsadoOrden.precio_unitario l)
              * 10 ^ Z.to_N (Decimal.exp (ElementoUsadoOrden.precio_unitario l)
                             + 2)
              < 10 ^ 10)%N)
      /\ ElementoUsadoOrden.usuario_id l ∈ pk_User keys.
Proof.
  unfold ElementoUsadoOrden.full_clean, ElementoUsadoOrden.clean_fields,
    ErrorDict.
  rewrite !app_nil, !on_nil, !ForeignKey_required_iff, IntegerField_min.
  rewrite DecimalField_iff. reflexivity.
Qed.

(** *** Unique columns *)

Lemma full_clean_nil (errors : ErrorDict) (unique : list string -> ErrorDict) :
  errors ++ unique (names errors) = [] <-> errors = [] /\ unique [] = [].
Proof.
  unfold ErrorDict in *. rewrite app_nil. split.
  - intros [-> H]. auto.
  - intros [-> H]. auto.
Qed.

Lemma unique_check_in {R V : Type} (eqb : V -> V -> bool) (column : R -> V)
    (table : gmap nat R) (pk : option nat) (v : V) (c : Code) :
  In c (unique_check eqb column table pk v)
  <-> c = Unique
      /\ exists j r, table !! j = Some r /\ eqb (column r) v = true
                     /\ pk <> Some j.
Proof.
  unfold unique_check. destruct (existsb _ _) eqn:E.
  - apply existsb_exists in E as ([j r] & Hin & Hf).
    apply list_elem_of_In, elem_of_map_to_list in Hin.
    apply andb_prop in Hf as [He Hp]. cbn in He, Hp.
    apply negb_true_iff, bool_decide_eq_false in Hp.
    cbn [In]. split; [intros [<-|[]]; eauto 6|intros [-> _]; now left].
  - cbn [In]. split; [intros []|]. intros (_ & j & r & Hl & He & Hp).
    assert (X : existsb (fun kr : nat * R =>
                  eqb (column kr.2) v && negb (bool_decide (pk = Some kr.1)))
                  (map_to_list table) = true); [|congruence].
    apply existsb_exists. exists (j, r). split.
    + now apply list_elem_of_In, elem_of_map_to_list.
    + cbn. rewrite He. cbn. now apply negb_true_iff, bool_decide_eq_false.
Qed.

(** X11.  A category is valid exactly when its name is not empty, has at most
    100 characters and is the name of no other category. *)
Theorem categoria_valid_iff (table : gmap nat Categoria.t) (c : Categoria.t) :
  Categoria.full_clean table c = []
  <-> Categoria.nombre c <> ""%string
      /\ (len (Categoria.nombre c) <= 100)%nat
      /\ forall j r, table !! j = Some r -> Categoria.id c <> Some j ->
                     Categoria.nombre r <> Categoria.nombre c.
Proof.
  unfold Categoria.full_clean. cbn zeta.
  pose proof (full_clean_nil (Categoria.clean_fields c)
                (fun exclude => Categoria.validate_unique table exclude c))
    as H. cbn beta in H. rewrite H. clear H.
  unfold Categoria.clean_fields, Categoria.validate_unique, ErrorDict.
  cbn [excluded existsb].
  rewrite app_nil, !on_nil, CharField_required_ok, TextField_optional_ok,
    unique_check_nil.
  setoid_rewrite String.eqb_neq. tauto.
Qed.

(** The codes a text column without choices can report. *)
Lemma CharField_codes (max_length : nat) (o : Options) (v : option string)
    (c : Code) :
  In c (CharField max_length o None v) ->
  c = Null \/ c = Blank \/ c = MaxLength.
Proof.
  unfold CharField, clean_field, clean, validate, run_validators.
  destruct (blank o && empty_text v); [intros []|].
  destruct (empty_other v && negb (null o)); [cbn; intuition|].
  destruct (negb (blank o) && empty_text v); [cbn; intuition|].
  destruct v as [s|]; [|intros []].
  destruct (empty_text (Some s)); [intros []|].
  cbn [flat_map]. rewrite app_nil_r. intros H.
  apply MaxLengthValidator_code in H. auto.
Qed.

Lemma excluded_rut (validate_email : string -> list Code) (c : Cliente.t) :
  excluded "rut" (names (Cliente.clean_fields validate_email c))
  = match CharField 12 optional None (Cliente.rut c) with
    | [] => false
    | _ => true
    end.
Proof.
  unfold Cliente.clean_fields.
  rewrite !excluded_app.
  rewrite !excluded_on_other by reflexivity. cbn [orb].
  destruct (CharField 12 optional None (Cliente.rut c)); reflexivity.
Qed.

(** X12.  The RUT of a client is checked for uniqueness whenever it holds a
    value that passed its cleaning, the empty string included: a client
    is reported as duplicate exactly when its RUT is some text of at most
    12 characters that another client holds.  A client without RUT
    ([None]) never is. *)
Theorem rut_duplicate_iff (validate_email : string -> list Code)
    (table : gmap nat Cliente.t) (c : Cliente.t) :
  In ("rut"%string, Unique) (Cliente.full_clean validate_email table c)
  <-> exists r j row,
        Cliente.rut c = Some r
        /\ (len r <= 12)%nat
        /\ table !! j = Some row
        /\ Cliente.rut row = Some r
        /\ Cliente.id c <> Some j.
Proof.
  unfold Cliente.full_clean, Cliente.validate_unique.
  rewrite excluded_rut. rewrite in_app_iff.
  assert (Hclean : ~ In ("rut"%string, Unique)
                       (Cliente.clean_fields validate_email c)).
  { unfold Cliente.clean_fields.
    repeat rewrite in_app_iff; repeat rewrite in_on.
    intros H. decompose [or and] H; try discriminate.
    match goal with X : In Unique (CharField _ _ _ _) |- _ =>
      apply CharField_codes in X; intuition discriminate end. }
  pose proof (CharField_optional_ok 12 (Cliente.rut c)) as Hok.
  destruct (Cliente.rut c) as [r|] eqn:Hr.
  - destruct (CharField 12 optional None (Some r)) as [|c0 l] eqn:E.
    + rewrite in_on, unique_check_in. split.
      * intros [H|(_ & _ & j & row & Hl & He & Hp)]; [contradiction|].
        unfold Cliente.eqb_rut in He.
        destruct (Cliente.rut row) as [r'|] eqn:Hrow; [|discriminate].
        apply String.eqb_eq in He. subst r'.
        exists r, j, row. repeat split; auto. now apply Hok.
      * intros (r' & j & row & [= <-] & _ & Hl & Hrow & Hp). right.
        repeat split. exists j, row. repeat split; auto.
        unfold Cliente.eqb_rut. rewrite Hrow. apply String.eqb_refl.
    + split; [intros [H|[]]; contradiction|].
      intros (r' & j & row & [= <-] & Hlen & _). exfalso.
      apply Hok in Hlen. discriminate.
  - destruct (CharField 12 optional None None);
      (split; [intros [H|[]]; contradiction|]);
      intros (r & j & row & Hx & _); discriminate.
Qed.

(** X7.  A profile is valid exactly when its user exists, its role is one of
    the three keys, its telephone, if any, has at most 20 characters, and
    no other profile belongs to the same user. *)
Theorem perfil_valid_iff (db : Accounts.DB) (p : Accounts.PerfilUsuario) :
  Perfil.full_clean db p = []
  <-> Accounts.user_id p ∈ Accounts.auth_user db
      /\ In (Accounts.rol p) ["administrador"; "trabajador"; "tecnico"]%string
      /\ match Accounts.telefono p with
         | Some t => (len t <= 20)%nat
         | None => True
         end
      /\ forall j row, Accounts.accounts_perfilusuario db !! j = Some row ->
                       Accounts.id p <> Some j ->
                       Accounts.user_id row <> Accounts.user_id p.
Proof.
  unfold Perfil.full_clean. cbn zeta.
  pose proof (full_clean_nil (Perfil.clean_fields (Accounts.auth_user db) p)
                (fun exclude =>
                   Perfil.validate_unique (Accounts.accounts_perfilusuario db)
                     exclude p))
    as H. cbn beta in H. rewrite H. clear H.
  unfold Perfil.clean_fields, Perfil.validate_unique, ErrorDict.
  cbn [excluded existsb].
  rewrite !app_nil, !on_nil, ForeignKey_required_iff, CharField_optional_ok,
    unique_check_nil.
  rewrite CharField_choices_ok
    by (repeat constructor; (discriminate || (cbn; lia))).
  setoid_rewrite Nat.eqb_neq.
  change (map fst Accounts.ROL_CHOICES)
    with ["administrador"; "trabajador"; "tecnico"]%string.
  tauto.
Qed.

End Validity.

(** ** Saving work orders *)

Section Orders.
Import Django Integridad Ejemplos.

Lemma OrdenTrabajo_save_inv (db : Mecanico.DB) (o : OrdenTrabajo.t) :
  match Mecanico.OrdenTrabajo_save db o with
  | Mecanico.Saved o' db' =>
      let pk := default (fresh (dom (Mecanico.ordentrabajo db)))
                  (OrdenTrabajo.id o) in
      o' = OrdenTrabajo.set_id o pk
      /\ db' = Mecanico.with_ordentrabajo db
                 (<[pk := o']> (Mecanico.ordentrabajo db))
      /\ (forall j r, Mecanico.ordentrabajo db !! j = Some r -> j <> pk ->
                      OrdenTrabajo.numero_orden r
                      <> OrdenTrabajo.numero_orden o)
  | Mecanico.IntegrityError => True
  | Mecanico.ValidationError _ => False
  end.
Proof.
  unfold Mecanico.OrdenTrabajo_save.
  set (pk := default _ _).
  destruct (unique_check String.eqb OrdenTrabajo.numero_orden
              (Mecanico.ordentrabajo db) (Some pk)
              (OrdenTrabajo.numero_orden o)) as [|c l] eqn:Hu;
    [|now rewrite andb_false_r].
  rewrite andb_true_r.
  destruct (_ && _); [|exact I].
  cbn zeta. split; [reflexivity|split; [reflexivity|]].
  rewrite unique_check_nil in Hu. intros j r Hl Hne.
  apply String.eqb_neq. apply (Hu j r Hl). congruence.
Qed.

(** X13.  A save of an order that succeeds writes the order under its key,
    leaves every other order as it was, and keeps the order numbers
    pairwise different. *)
Theorem OrdenTrabajo_save_keeps_numero_unico (db db' : Mecanico.DB)
    (o o' : OrdenTrabajo.t) :
  Mecanico.OrdenTrabajo_save db o = Mecanico.Saved o' db' ->
  numero_orden_unico db ->
  numero_orden_unico db'
  /\ exists pk,
       OrdenTrabajo.id o' = Some pk
       /\ Mecanico.ordentrabajo db' !! pk = Some o'
       /\ OrdenTrabajo.numero_orden o' = OrdenTrabajo.numero_orden o
       /\ OrdenTrabajo.estado o' = OrdenTrabajo.estado o
       /\ forall j, j <> pk ->
                    Mecanico.ordentrabajo db' !! j
                    = Mecanico.ordentrabajo db !! j.
Proof.
  intros Hs Huniq. pose proof (OrdenTrabajo_save_inv db o) as H.
  rewrite Hs in H. cbn zeta in H. set (pk := default _ _) in H.
  destruct H as (Ho & Hdb & Hfree). subst db'.
  cbn [Mecanico.with_ordentrabajo Mecanico.ordentrabajo].
  assert (Hnum : OrdenTrabajo.numero_orden o' = OrdenTrabajo.numero_orden o)
    by (subst o'; reflexivity).
  split.
  - unfold numero_orden_unico.
    cbn [Mecanico.with_ordentrabajo Mecanico.ordentrabajo].
    intros j1 j2 o1 o2.
    destruct (Nat.eq_dec j1 pk) as [->|N1], (Nat.eq_dec j2 pk) as [->|N2];
      rewrite ?lookup_insert_eq, ?lookup_insert_ne by congruence;
      [reflexivity| | |exact (Huniq j1 j2 o1 o2)].
    + intros [= <-] L2 Hn. exfalso. apply (Hfree j2 o2 L2 N2). congruence.
    + intros L1 [= <-] Hn. exfalso. apply (Hfree j1 o1 L1 N1). congruence.
  - exists pk. split; [subst o'; reflexivity|].
    split; [apply lookup_insert_eq|]. split; [exact Hnum|].
    split; [subst o'; reflexivity|].
    intros j Hne. now rewrite lookup_insert_ne by congruence.
Qed.

Lemma taller_numero_unico : numero_orden_unico taller.
Proof.
  intros j1 j2 o1 o2 L1 L2 _. unfold taller in L1, L2.
  cbn [Mecanico.ordentrabajo] in L1, L2.
  apply lookup_singleton_Some in L1 as [<- _], L2 as [<- _]. reflexivity.
Qed.

Lemma OrdenTrabajo_save_keeps_numero_unico_witness :
  exists o' db',
    Mecanico.OrdenTrabajo_save taller orden_nueva = Mecanico.Saved o' db'
    /\ numero_orden_unico db'.
Proof.
  destruct (Mecanico.OrdenTrabajo_save taller orden_nueva) as [o' db'| |]
    eqn:Hs; [|vm_compute in Hs; discriminate..].
  exists o', db'. split; [reflexivity|].
  exact (proj1 (OrdenTrabajo_save_keeps_numero_unico taller db' orden_nueva o'
                  Hs taller_numero_unico)).
Defined.

(** X14.  The database refuses an order whose number another order holds,
    whether or not validation ran before the save. *)
Theorem duplicate_numero_refused (db : Mecanico.DB) (o r : OrdenTrabajo.t)
    (j : nat) :
  Mecanico.ordentrabajo db !! j = Some r ->
  OrdenTrabajo.numero_orden r = OrdenTrabajo.numero_orden o ->
  OrdenTrabajo.id o <> Some j ->
  Mecanico.OrdenTrabajo_save db o = Mecanico.IntegrityError.
Proof.
  intros Hl Hn Hid. pose proof (OrdenTrabajo_save_inv db o) as H.
  destruct (Mecanico.OrdenTrabajo_save db o) as [o' db'| |];
    [exfalso|reflexivity|destruct H].
  cbn zeta in H. destruct H as (_ & _ & Hfree).
  apply (Hfree j r Hl); [|exact Hn].
  destruct (OrdenTrabajo.id o) as [k|]; cbn [default from_option Datatypes.id].
  - congruence.
  - intros ->. apply (is_fresh (dom (Mecanico.ordentrabajo db))).
    apply elem_of_dom. eauto.
Qed.

Lemma duplicate_numero_refused_witness :
  Mecanico.OrdenTrabajo_save taller orden_repetida = Mecanico.IntegrityError.
Proof.
  apply (duplicate_numero_refused taller orden_repetida orden_entregada 1%nat);
    [reflexivity|reflexivity|discriminate].
Defined.

(** X15.  Validation is enough for the save: an order that passes [full_clean]
    against the tables, new or stored, is saved, a new one under a key no
    order had. *)
Theorem valid_order_is_saved (db : Mecanico.DB) (o : OrdenTrabajo.t) :
  OrdenTrabajo.full_clean (Mecanico.keys db) (Mecanico.ordentrabajo db) o = [] ->
  let pk := default (fresh (dom (Mecanico.ordentrabajo db)))
              (OrdenTrabajo.id o) in
  Mecanico.OrdenTrabajo_save db o
  = Mecanico.Saved (OrdenTrabajo.set_id o pk)
      (Mecanico.with_ordentrabajo db
         (<[pk := OrdenTrabajo.set_id o pk]> (Mecanico.ordentrabajo db)))
  /\ (OrdenTrabajo.id o = None -> pk ∉ dom (Mecanico.ordentrabajo db)).
Proof.
  intros Hok pk. split; [|intros Hid; subst pk; rewrite Hid; apply is_fresh].
  unfold OrdenTrabajo.full_clean in Hok.
  apply app_eq_nil in Hok as [Hc Hu]. rewrite Hc in Hu.
  unfold OrdenTrabajo.validate_unique in Hu.
  cbn [names map excluded existsb] in Hu. apply on_nil in Hu.
  rewrite unique_check_nil in Hu.
  unfold Mecanico.OrdenTrabajo_save. fold pk.
  unfold OrdenTrabajo.clean_fields in Hc.
  repeat (apply app_eq_nil in Hc as [?H Hc]).
  repeat match goal with E : on _ _ = [] |- _ => apply on_nil in E end.
  repeat match goal with
    | E : ForeignKey _ required _ = [] |- _ => apply ForeignKey_required_ok in E
    | E : ForeignKey _ optional _ = [] |- _ => apply ForeignKey_optional_ok in E
    end.
  cbn [Mecanico.keys pk_Cliente pk_TipoMaquina pk_User] in *.
  rewrite !bool_decide_eq_true_2 by assumption.
  replace (match OrdenTrabajo.tecnico_asignado_id o with
           | Some u => bool_decide (u ∈ Mecanico.auth_user db)
           | None => true
           end) with true
    by (destruct (OrdenTrabajo.tecnico_asignado_id o);
        [now rewrite bool_decide_eq_true_2|reflexivity]).
  assert (Hu' : unique_check String.eqb OrdenTrabajo.numero_orden
                  (Mecanico.ordentrabajo db) (Some pk)
                  (OrdenTrabajo.numero_orden o) = []).
  { apply unique_check_nil. intros j r Hl Hne. apply (Hu j r Hl).
    destruct (OrdenTrabajo.id o) as [k|] eqn:Hid; [|discriminate].
    subst pk. cbn [default from_option Datatypes.id] in Hne. exact Hne. }
  rewrite Hu'. reflexivity.
Qed.

Lemma valid_order_is_saved_witness :
  OrdenTrabajo.full_clean (Mecanico.keys taller) (Mecanico.ordentrabajo taller)
    orden_nueva = []
  /\ exists o' db',
       Mecanico.OrdenTrabajo_save taller orden_nueva = Mecanico.Saved o' db'.
Proof.
  assert (H : OrdenTrabajo.full_clean (Mecanico.keys taller)
                (Mecanico.ordentrabajo taller) orden_nueva = [])
    by (vm_compute; reflexivity).
  split; [exact H|].
  eexists _, _. exact (proj1 (valid_order_is_saved taller orden_nueva H)).
Defined.

(** X16.  The year of the machine is optional; when one is given,
    validation reports it exactly when it is before 1900 or outside the
    range of the connection. *)
Theorem ano_maquina_rejected_iff (keys : PrimaryKeys)
    (table : gmap nat OrdenTrabajo.t) (o : OrdenTrabajo.t) :
  (exists c, In ("ano_maquina"%string, c)
               (OrdenTrabajo.full_clean keys table o))
  <-> exists y, OrdenTrabajo.ano_maquina o = Some y
                /\ (y < 1900 \/ ~ in_range (integer_field_range keys) y).
Proof.
  assert (Hcol : forall c,
    In ("ano_maquina"%string, c) (OrdenTrabajo.full_clean keys table o)
    <-> In c (IntegerField (integer_field_range keys) optional [Min 1900]
                (OrdenTrabajo.ano_maquina o))).
  { intros c. unfold OrdenTrabajo.full_clean, OrdenTrabajo.validate_unique,
      OrdenTrabajo.clean_fields.
    destruct (excluded _ _);
      repeat rewrite in_app_iff; repeat rewrite in_on; cbn [In];
      intuition discriminate. }
  setoid_rewrite Hcol.
  destruct (OrdenTrabajo.ano_maquina o) as [y|].
  - change (IntegerField (integer_field_range keys) optional [Min 1900]
              (Some y))
      with (IntegerField (integer_field_range keys) required [Min 1900]
              (Some y)).
    pose proof (IntegerField_min (integer_field_range keys) 1900 y) as Hok.
    destruct (IntegerField (integer_field_range keys) required [Min 1900]
                (Some y)) as [|c l].
    + split; [intros [c []]|].
      intros (y' & [= <-] & Hy). assert (1900 <= y /\ in_range
        (integer_field_range keys) y) by now apply Hok. intuition lia.
    + split; [intros _|intros _; exists c; now left].
      exists y. split; [reflexivity|].
      destruct (Z.lt_ge_cases y 1900) as [|Hge]; [now left|right].
      intros Hin. assert (X : c :: l = []) by (apply Hok; auto).
      discriminate.
  - cbn. split; [intros [c []]|intros (y & Hy & _); discriminate].
Qed.

End Orders.

(** ** The ledger and deletions *)

Section Stock.
Import Django Integridad Ejemplos.

(** X17.  Recording a movement appends one row to the ledger, under a key no
    movement had, and changes nothing else: no earlier movement is
    touched, and the item keeps the quantity it had, whatever the
    movement says. *)
Theorem MovimientoStock_create_appends (db db' : Mecanico.DB)
    (m m' : MovimientoStock.t) :
  Mecanico.MovimientoStock_create db m = Mecanico.Saved m' db' ->
  exists pk,
    (pk ∉ dom (Mecanico.movimientostock db))
    /\ m' = Mecanico.movimiento_set_id m pk
    /\ db' = Mecanico.with_movimientostock db
               (<[pk := m']> (Mecanico.movimientostock db))
    /\ (forall j r, Mecanico.movimientostock db !! j = Some r ->
                    Mecanico.movimientostock db' !! j = Some r)
    /\ Mecanico.elementomecanico db' = Mecanico.elementomecanico db
    /\ (elementos_referidos db -> elementos_referidos db').
Proof.
  unfold Mecanico.MovimientoStock_create. set (pk := default _ _).
  destruct (bool_decide_reflect
              (MovimientoStock.elemento_id m
               ∈ dom (Mecanico.elementomecanico db))) as [He|];
    [|discriminate].
  destruct (bool_decide_reflect
              (MovimientoStock.usuario_id m ∈ Mecanico.auth_user db));
    [|discriminate].
  destruct (bool_decide_reflect (pk ∈ dom (Mecanico.movimientostock db)))
    as [|Hfresh]; [discriminate|].
  cbn [andb negb]. intros [= <- <-]. exists pk.
  split; [exact Hfresh|]. split; [reflexivity|]. split; [reflexivity|].
  cbn [Mecanico.with_movimientostock Mecanico.movimientostock
       Mecanico.elementomecanico].
  split; [|split; [reflexivity|]].
  - intros j r Hl. rewrite lookup_insert_ne; [exact Hl|].
    intros <-. apply Hfresh, elem_of_dom. eauto.
  - intros [Hmov Hlin]. split; cbn [Mecanico.with_movimientostock
      Mecanico.movimientostock Mecanico.elementomecanico
      Mecanico.elementousadoorden]; [|exact Hlin].
    intros j r. destruct (Nat.eq_dec j pk) as [->|Hne].
    + rewrite lookup_insert_eq. intros [= <-]. exact He.
    + rewrite lookup_insert_ne by congruence. apply Hmov.
Qed.

Lemma MovimientoStock_create_appends_witness :
  exists m' db',
    Mecanico.MovimientoStock_create taller_con_libro movimiento_incoherente
    = Mecanico.Saved m' db'
    /\ Mecanico.movimientostock db' !! 1%nat = Some movimiento_almacenado
    /\ Mecanico.elementomecanico db' !! 1%nat = Some elemento_almacenado.
Proof.
  destruct (Mecanico.MovimientoStock_create taller_con_libro
              movimiento_incoherente) as [m' db'| |] eqn:Hs;
    [|vm_compute in Hs; discriminate..].
  destruct (MovimientoStock_create_appends _ _ _ _ Hs)
    as (pk & _ & _ & _ & Hold & Hitems & _).
  exists m', db'. split; [reflexivity|]. split.
  - apply Hold. reflexivity.
  - rewrite Hitems. reflexivity.
Defined.

(** X18.  A movement whose item or user is not stored is refused by the
    database and nothing is written. *)
Theorem MovimientoStock_create_dangling (db : Mecanico.DB)
    (m : MovimientoStock.t) :
  (MovimientoStock.elemento_id m ∉ dom (Mecanico.elementomecanico db))
  \/ (MovimientoStock.usuario_id m ∉ Mecanico.auth_user db) ->
  Mecanico.MovimientoStock_create db m = Mecanico.IntegrityError.
Proof.
  intros H. unfold Mecanico.MovimientoStock_create.
  destruct H as [H|H]; rewrite (bool_decide_eq_false_2 _ H);
    [|rewrite andb_false_r]; reflexivity.
Qed.

Lemma MovimientoStock_create_dangling_witness :
  Mecanico.MovimientoStock_create
    (Mecanico.with_movimientostock taller ∅)
    (Mecanico.movimiento_set_id
       {| MovimientoStock.id := None;
          MovimientoStock.elemento_id := 7;
          MovimientoStock.tipo_movimiento := "salida";
          MovimientoStock.cantidad := 1;
          MovimientoStock.motivo := "Uso";
          MovimientoStock.stock_anterior := 10;
          MovimientoStock.stock_nuevo := 9;
          MovimientoStock.usuario_id := 1 |} 3)
  = Mecanico.IntegrityError.
Proof.
  apply MovimientoStock_create_dangling. left. vm_compute. discriminate.
Defined.

Lemma existsb_map_to_list {R : Type} (f : R -> bool) (table : gmap nat R) :
  existsb (fun kr : nat * R => f kr.2) (map_to_list table) = true
  <-> exists j r, table !! j = Some r /\ f r = true.
Proof.
  rewrite existsb_exists. split.
  - intros ([j r] & Hin & Hf).
    apply list_elem_of_In, elem_of_map_to_list in Hin. eauto.
  - intros (j & r & Hl & Hf). exists (j, r). split; [|exact Hf].
    now apply list_elem_of_In, elem_of_map_to_list.
Qed.

(** X19.  Deleting an item is refused exactly when an order line uses it.
    Otherwise the item goes, its movements go with it, every other
    movement and every order line stays, and no movement or line is left
    pointing at an item that is not stored. *)
Theorem ElementoMecanico_delete_spec (db : Mecanico.DB) (k : nat) :
  match Collector.ElementoMecanico_delete db k with
  | Collector.ProtectedError =>
      exists j l, Mecanico.elementousadoorden db !! j = Some l
                  /\ ElementoUsadoOrden.elemento_id l = k
  | Collector.Deleted db' =>
      (forall j l, Mecanico.elementousadoorden db !! j = Some l ->
                   ElementoUsadoOrden.elemento_id l <> k)
      /\ Mecanico.elementomecanico db' = delete k (Mecanico.elementomecanico db)
      /\ (forall j m, Mecanico.movimientostock db' !! j = Some m
                      <-> Mecanico.movimientostock db !! j = Some m
                          /\ MovimientoStock.elemento_id m <> k)
      /\ Mecanico.elementousadoorden db' = Mecanico.elementousadoorden db
      /\ (elementos_referidos db -> elementos_referidos db')
  end.
Proof.
  unfold Collector.ElementoMecanico_delete.
  destruct (existsb _ _) eqn:E.
  - apply (existsb_map_to_list
             (fun l => Nat.eqb (ElementoUsadoOrden.elemento_id l) k)) in E.
    destruct E as (j & l & Hl & Hk). apply Nat.eqb_eq in Hk. eauto.
  - assert (Hfree : forall j l, Mecanico.elementousadoorden db !! j = Some l ->
                                ElementoUsadoOrden.elemento_id l <> k).
    { intros j l Hl Hk.
      assert (X : existsb (fun kr : nat * ElementoUsadoOrden.t =>
                    Nat.eqb (ElementoUsadoOrden.elemento_id kr.2) k)
                    (map_to_list (Mecanico.elementousadoorden db)) = true);
        [|congruence].
      apply (existsb_map_to_list
               (fun l => Nat.eqb (ElementoUsadoOrden.elemento_id l) k)).
      exists j, l. split; [exact Hl|now apply Nat.eqb_eq]. }
    cbn [Mecanico.elementomecanico Mecanico.movimientostock
         Mecanico.elementousadoorden].
    assert (Hmov : forall j m,
      filter (fun kr : nat * MovimientoStock.t =>
                MovimientoStock.elemento_id kr.2 <> k)
        (Mecanico.movimientostock db) !! j = Some m
      <-> Mecanico.movimientostock db !! j = Some m
          /\ MovimientoStock.elemento_id m <> k).
    { intros j m. now rewrite map_lookup_filter_Some. }
    split; [exact Hfree|]. split; [reflexivity|]. split; [exact Hmov|].
    split; [reflexivity|].
    intros [Hm Hl]. split; cbn [Mecanico.elementomecanico
      Mecanico.movimientostock Mecanico.elementousadoorden].
    + intros j m Hj. apply Hmov in Hj as [Hj Hne].
      rewrite dom_delete_L. apply elem_of_difference. split; [eauto|].
      rewrite elem_of_singleton. congruence.
    + intros j l Hj. rewrite dom_delete_L. apply elem_of_difference.
      split; [eauto|]. rewrite elem_of_singleton. intros Hk.
      now apply (Hfree j l Hj).
Qed.

(** X20.  A category or a location that an item refers to cannot be deleted;
    one that no item refers to is deleted and every item still points at
    a stored category and location. *)
Theorem catalogo_delete_spec (db : Mecanico.DB) (k : nat) :
  match Collector.Categoria_delete db k with
  | Collector.ProtectedError =>
      exists j e, Mecanico.elementomecanico db !! j = Some e
                  /\ ElementoMecanico.categoria_id e = k
  | Collector.Deleted db' =>
      Mecanico.categoria db' = Mecanico.categoria db ∖ {[k]}
      /\ Mecanico.elementomecanico db' = Mecanico.elementomecanico db
      /\ (catalogo_referido db -> catalogo_referido db')
  end
  /\ match Collector.Ubicacion_delete db k with
     | Collector.ProtectedError =>
         exists j e, Mecanico.elementomecanico db !! j = Some e
                     /\ ElementoMecanico.ubicacion_id e = k
     | Collector.Deleted db' =>
         Mecanico.ubicacion db' = Mecanico.ubicacion db ∖ {[k]}
         /\ Mecanico.elementomecanico db' = Mecanico.elementomecanico db
         /\ (catalogo_referido db -> catalogo_referido db')
     end.
Proof.
  split.
  - unfold Collector.Categoria_delete. destruct (existsb _ _) eqn:E.
    + apply (existsb_map_to_list
               (fun e => Nat.eqb (ElementoMecanico.categoria_id e) k)) in E.
      destruct E as (j & e & Hl & Hk). apply Nat.eqb_eq in Hk. eauto.
    + split; [reflexivity|]. split; [reflexivity|].
      intros Href j e Hl. cbn [Mecanico.elementomecanico Mecanico.categoria
        Mecanico.ubicacion] in *.
      destruct (Href j e Hl) as [Hc Hu]. split; [|exact Hu].
      apply elem_of_difference. split; [exact Hc|].
      rewrite elem_of_singleton. intros Hk.
      assert (X : existsb (fun kr : nat * ElementoMecanico.t =>
                    Nat.eqb (ElementoMecanico.categoria_id kr.2) k)
                    (map_to_list (Mecanico.elementomecanico db)) = true);
        [|congruence].
      apply (existsb_map_to_list
               (fun e => Nat.eqb (ElementoMecanico.categoria_id e) k)).
      exists j, e. split; [exact Hl|now apply Nat.eqb_eq].
  - unfold Collector.Ubicacion_delete. destruct (existsb _ _) eqn:E.
    + apply (existsb_map_to_list
               (fun e => Nat.eqb (ElementoMecanico.ubicacion_id e) k)) in E.
      destruct E as (j & e & Hl & Hk). apply Nat.eqb_eq in Hk. eauto.
    + split; [reflexivity|]. split; [reflexivity|].
      intros Href j e Hl. cbn [Mecanico.elementomecanico Mecanico.categoria
        Mecanico.ubicacion] in *.
      destruct (Href j e Hl) as [Hc Hu]. split; [exact Hc|].
      apply elem_of_difference. split; [exact Hu|].
      rewrite elem_of_singleton. intros Hk.
      assert (X : existsb (fun kr : nat * ElementoMecanico.t =>
                    Nat.eqb (ElementoMecanico.ubicacion_id kr.2) k)
                    (map_to_list (Mecanico.elementomecanico db)) = true);
        [|congruence].
      apply (existsb_map_to_list
               (fun e => Nat.eqb (ElementoMecanico.ubicacion_id e) k)).
      exists j, e. split; [exact Hl|now apply Nat.eqb_eq].
Qed.

End Stock.

(** ** Home visits and the orders they generate *)

Section Visits.
Import Django.

Lemma ForeignKey_codes (target : gset nat) (o : Options) (v : option nat)
    (c : Code) :
  In c (ForeignKey target o v) -> c = Null \/ c = Blank \/ c = Invalid.
Proof.
  unfold ForeignKey, clean_field, clean, validate, run_validators.
  destruct (blank o && empty_other v); [intros []|].
  destruct (empty_other v && negb (null o)); [cbn; intuition|].
  destruct (negb (blank o) && empty_other v); [cbn; intuition|].
  destruct v as [k|]; [|intros []]. cbn.
  destruct (bool_decide (k ∈ target)); cbn; intuition.
Qed.

Lemma ForeignKey_optional_iff (target : gset nat) (k : nat) :
  ForeignKey target optional (Some k) = [] <-> k ∈ target.
Proof.
  unfold ForeignKey, clean_field, clean, validate, run_validators. cbn.
  destruct (bool_decide_reflect (k ∈ target)); split; intros;
    try discriminate; try contradiction; auto.
Qed.

Lemma excluded_orden_generada (keys : PrimaryKeys) (v : AgendaDomicilio.t) :
  excluded "orden_generada" (names (AgendaDomicilio.clean_fields keys v))
  = match ForeignKey (pk_OrdenTrabajo keys) optional
            (AgendaDomicilio.orden_generada_id v) with
    | [] => false
    | _ => true
    end.
Proof.
  unfold AgendaDomicilio.clean_fields.
  destruct (ForeignKey (pk_OrdenTrabajo keys) optional
              (AgendaDomicilio.orden_generada_id v)) as [|c l].
  - cbn [on map]. rewrite !excluded_app.
    rewrite !excluded_on_other by reflexivity. reflexivity.
  - rewrite !excluded_app.
    assert (H : excluded "orden_generada"
                  (names (on "orden_generada" (c :: l))) = true)
      by (apply excluded_on_same; discriminate).
    rewrite H. now rewrite !orb_true_r.
Qed.

(** X21.  A work order can be the order generated by one visit only:
    validation reports a visit as duplicate exactly when its
    [orden_generada] is a stored order that another visit already points
    at.  Any number of visits may have no order. *)
Theorem orden_generada_duplicate_iff (keys : PrimaryKeys)
    (table : gmap nat AgendaDomicilio.t) (v : AgendaDomicilio.t) :
  In ("orden_generada"%string, Unique)
     (AgendaDomicilio.full_clean keys table v)
  <-> exists k j row,
        AgendaDomicilio.orden_generada_id v = Some k
        /\ k ∈ pk_OrdenTrabajo keys
        /\ table !! j = Some row
        /\ AgendaDomicilio.orden_generada_id row = Some k
        /\ AgendaDomicilio.id v <> Some j.
Proof.
  unfold AgendaDomicilio.full_clean, AgendaDomicilio.validate_unique.
  rewrite excluded_orden_generada, in_app_iff.
  assert (Hclean : ~ In ("orden_generada"%string, Unique)
                       (AgendaDomicilio.clean_fields keys v)).
  { unfold AgendaDomicilio.clean_fields.
    repeat rewrite in_app_iff; repeat rewrite in_on.
    intros H. decompose [or and] H; try discriminate.
    match goal with X : In Unique (ForeignKey _ optional _) |- _ =>
      apply ForeignKey_codes in X; intuition discriminate end. }
  destruct (AgendaDomicilio.orden_generada_id v) as [k|] eqn:Hk.
  - pose proof (ForeignKey_optional_iff (pk_OrdenTrabajo keys) k) as Hok.
    destruct (ForeignKey (pk_OrdenTrabajo keys) optional (Some k))
      as [|c0 l].
    + rewrite in_on, unique_check_in. split.
      * intros [H|(_ & _ & j & row & Hl & He & Hp)]; [contradiction|].
        unfold AgendaDomicilio.eqb_orden in He.
        destruct (AgendaDomicilio.orden_generada_id row) as [k'|] eqn:Hrow;
          [|discriminate].
        apply Nat.eqb_eq in He. subst k'.
        exists k, j, row. repeat split; auto. now apply Hok.
      * intros (k' & j & row & [= <-] & _ & Hl & Hrow & Hp). right.
        repeat split. exists j, row. repeat split; auto.
        unfold AgendaDomicilio.eqb_orden. rewrite Hrow. apply Nat.eqb_refl.
    + split; [intros [H|[]]; contradiction|].
      intros (k' & j & row & [= <-] & Hin & _). apply Hok in Hin.
      discriminate.
  - destruct (ForeignKey (pk_OrdenTrabajo keys) optional None);
      (split; [intros [H|[]]; contradiction|]);
      intros (k & j & row & Hx & _); discriminate.
Qed.

(** X22.  Deleting a work order removes the order and exactly its used-item
    lines, and clears [orden_generada] on the visit that pointed at it;
    every visit stays in the agenda and none points at the deleted order
    afterwards.  Items and the movement ledger are not touched: the stock
    the order consumed is not given back. *)
Theorem OrdenTrabajo_delete_spec (s : Taller.Store) (k : nat) :
  let s' := Taller.OrdenTrabajo_delete s k in
  Mecanico.ordentrabajo (Taller.base s') !! k = None
  /\ (forall j, j <> k ->
        Mecanico.ordentrabajo (Taller.base s') !! j
        = Mecanico.ordentrabajo (Taller.base s) !! j)
  /\ (forall j l,
        Mecanico.elementousadoorden (Taller.base s') !! j = Some l
        <-> Mecanico.elementousadoorden (Taller.base s) !! j = Some l
            /\ ElementoUsadoOrden.orden_id l <> k)
  /\ (forall j v', Taller.agendadomicilio s' !! j = Some v' ->
                   AgendaDomicilio.orden_generada_id v' <> Some k)
  /\ (forall j v, Taller.agendadomicilio s !! j = Some v ->
        Taller.agendadomicilio s' !! j
        = Some (if AgendaDomicilio.eqb_orden
                     (AgendaDomicilio.orden_generada_id v) (Some k)
                then AgendaDomicilio.clear_orden_generada v else v))
  /\ dom (Taller.agendadomicilio s') = dom (Taller.agendadomicilio s)
  /\ Mecanico.elementomecanico (Taller.base s')
     = Mecanico.elementomecanico (Taller.base s)
  /\ Mecanico.movimientostock (Taller.base s')
     = Mecanico.movimientostock (Taller.base s).
Proof.
  cbn zeta. unfold Taller.OrdenTrabajo_delete.
  cbn [Taller.base Taller.agendadomicilio Mecanico.ordentrabajo
       Mecanico.elementousadoorden Mecanico.elementomecanico
       Mecanico.movimientostock].
  split; [apply lookup_delete_eq|].
  split; [intros j Hne; now apply lookup_delete_ne|].
  split; [intros j l; now rewrite map_lookup_filter_Some|].
  split; [|split; [|split; [apply dom_fmap_L|split; reflexivity]]].
  - intros j v'. rewrite lookup_fmap.
    destruct (Taller.agendadomicilio s !! j) as [v|]; [|discriminate].
    cbn. intros [= <-].
    destruct (AgendaDomicilio.orden_generada_id v) as [k'|] eqn:Hv; cbn.
    + destruct (Nat.eqb_spec k' k); cbn; [discriminate|]. rewrite Hv.
      congruence.
    + rewrite Hv. discriminate.
  - intros j v Hl. now rewrite lookup_fmap, Hl.
Qed.

End Visits.
